(** * canvass.py: election canvass text to contest table

    A shallow embedding of [canvass.py] (Warren County canvass parser) and
    the properties of its parsing pipeline.

    Conventions of the embedding.
    - A Python [str] is a [string]; a character is its code point, in the
      range 0..255.  Character classes ([str.isspace], [\s], [\d],
      line boundaries, case mapping) are Python 3's on that range.
    - A Python [int] is a [Z]; list indices are [Z] and follow Python's
      rule for negative indices.
    - A call either returns, raises, or is still running when its loop
      budget is used up: see [outcome].  Only the two [while] loops of the
      program take a budget.
    - A Python [dict] is a [gmap]; the file system is a [gmap] from paths
      to file texts. *)

From Stdlib Require Import ZArith Ascii String.
From stdpp Require Import gmap strings list fin_maps.

Local Open Scope Z_scope.

(** ** Outcomes of a call *)

Inductive exn :=
  | IndexError | ValueError | KeyError | TypeError
  | AssertionError | UnboundLocalError | FileNotFoundError.

Inductive outcome (A : Type) :=
  | Ret (a : A)        (* the call returned [a] *)
  | Raise (e : exn)    (* the call raised [e] *)
  | OutOfFuel.         (* the loop budget ran out before the call finished *)
Arguments Ret {A} a.
Arguments Raise {A} e.
Arguments OutOfFuel {A}.

Global Instance outcome_ret : MRet outcome := @Ret.
Global Instance outcome_bind : MBind outcome := fun A B f m =>
  match m with
  | Ret a => f a
  | Raise e => Raise e
  | OutOfFuel => OutOfFuel
  end.

Definition returns {A} (m : outcome A) : Prop := exists a, m = Ret a.
Definition raises {A} (m : outcome A) : Prop := exists e, m = Raise e.

(** [for x in l: acc = f acc x], stopping at the first exception. *)
Fixpoint for_each {A S} (f : S -> A -> outcome S) (l : list A) (acc : S)
  : outcome S :=
  match l with
  | [] => Ret acc
  | x :: l' => acc' ← f acc x; for_each f l' acc'
  end.

(** [[f x for x in l]], stopping at the first exception. *)
Fixpoint map_each {A B} (f : A -> outcome B) (l : list A) : outcome (list B) :=
  match l with
  | [] => Ret []
  | x :: l' => y ← f x; ys ← map_each f l'; Ret (y :: ys)
  end.

(** [while cond(st): st = body(st)], at most [fuel] iterations. *)
Fixpoint while {S} (fuel : nat) (cond : S -> bool) (body : S -> outcome S)
  (st : S) : outcome S :=
  if cond st then
    match fuel with
    | O => OutOfFuel
    | S fuel' => st' ← body st; while fuel' cond body st'
    end
  else Ret st.

(** ** Python built-ins *)

Module Py.

(** *** Characters *)

Definition code (c : ascii) : N := N_of_ascii c.

Definition between (lo hi : N) (c : ascii) : bool :=
  ((lo <=? code c) && (code c <=? hi))%N.

(** [str.isspace], which is also [\s] of [re] on [str] patterns:
    TAB LF VT FF CR, FS GS RS US, SPACE, NEL, NBSP. *)
Definition isspace (c : ascii) : bool :=
  between 9 13 c || between 28 31 c
  || (code c =? 32)%N || (code c =? 133)%N || (code c =? 160)%N.

(** [\d] of [re]: the decimal digits. *)
Definition isdecimal (c : ascii) : bool := between 48 57 c.

(** The line boundaries of [str.splitlines]: LF VT FF CR FS GS RS NEL. *)
Definition islinebreak (c : ascii) : bool :=
  between 10 13 c || between 28 30 c || (code c =? 133)%N.

Definition shift (d : N) (c : ascii) : ascii := ascii_of_N (code c + d).
Definition unshift (d : N) (c : ascii) : ascii := ascii_of_N (code c - d).

(** [c.upper()].  The sharp s (223) becomes "SS"; the upper cases of the
    micro sign (181) and of y with diaeresis (255) lie above code 255,
    are no ASCII letters, and are left in place here. *)
Definition upper_char (c : ascii) : string :=
  if between 97 122 c then String (unshift 32 c) ""
  else if (code c =? 223)%N then "SS"
  else if between 224 254 c && negb (code c =? 247)%N
       then String (unshift 32 c) ""
  else String c "".

(** [c.lower()]. *)
Definition lower_char (c : ascii) : ascii :=
  if between 65 90 c then shift 32 c
  else if between 192 222 c && negb (code c =? 215)%N then shift 32 c
  else c.

(** *** Strings *)

Fixpoint len (s : string) : nat :=
  match s with
  | EmptyString => O
  | String _ s' => S (len s')
  end.

Fixpoint drop (n : nat) (s : string) : string :=
  match n, s with
  | O, _ => s
  | S n', String _ s' => drop n' s'
  | S _, EmptyString => EmptyString
  end.

Fixpoint take (n : nat) (s : string) : string :=
  match n, s with
  | S n', String c s' => String c (take n' s')
  | _, _ => EmptyString
  end.

Fixpoint upper (s : string) : string :=
  match s with
  | EmptyString => EmptyString
  | String c s' => upper_char c +:+ upper s'
  end.

Fixpoint lower (s : string) : string :=
  match s with
  | EmptyString => EmptyString
  | String c s' => String (lower_char c) (lower s')
  end.

Fixpoint startswith (p s : string) : bool :=
  match p, s with
  | EmptyString, _ => true
  | String a p', String b s' => Ascii.eqb a b && startswith p' s'
  | String _ _, EmptyString => false
  end.

(** [needle in s] *)
Fixpoint contains (needle s : string) : bool :=
  startswith needle s ||
  match s with
  | EmptyString => false
  | String _ s' => contains needle s'
  end.

Fixpoint lstrip_of (ws : ascii -> bool) (s : string) : string :=
  match s with
  | EmptyString => EmptyString
  | String c s' => if ws c then lstrip_of ws s' else s
  end.

Fixpoint rstrip_of (ws : ascii -> bool) (s : string) : string :=
  match s with
  | EmptyString => EmptyString
  | String c s' =>
      match rstrip_of ws s' with
      | EmptyString => if ws c then EmptyString else String c EmptyString
      | r => String c r
      end
  end.

Definition lstrip := lstrip_of isspace.
Definition rstrip := rstrip_of isspace.

(** [s.splitlines()]: "\r\n" is one boundary, and a boundary at the very
    end opens no further line. *)
Fixpoint splitlines_from (cur : string) (s : string) : list string :=
  match s with
  | EmptyString => if decide (cur = EmptyString) then [] else [cur]
  | String c s' =>
      if islinebreak c then
        match s' with
        | String c' s'' =>
            if (code c =? 13)%N && (code c' =? 10)%N
            then cur :: splitlines_from EmptyString s''
            else cur :: splitlines_from EmptyString s'
        | EmptyString => [cur]
        end
      else splitlines_from (cur +:+ String c EmptyString) s'
  end.

Definition splitlines (s : string) : list string :=
  splitlines_from EmptyString s.

(** *** Integers *)

Definition digit_value (c : ascii) : Z := Z.of_N (code c) - 48.

(** The digits of an [int] literal: decimal digits, with single
    underscores allowed between two digits. *)
Fixpoint int_digits (acc : Z) (after_digit : bool) (s : string) : option Z :=
  match s with
  | EmptyString => if after_digit then Some acc else None
  | String c s' =>
      if isdecimal c then int_digits (10 * acc + digit_value c) true s'
      else if Ascii.eqb c "_" && after_digit then int_digits acc false s'
      else None
  end.

(** The white space [int] skips around the literal: TAB LF VT FF CR,
    SPACE, NEL, NBSP (the separators 28..31 are not skipped). *)
Definition int_space (c : ascii) : bool :=
  between 9 13 c || (code c =? 32)%N || (code c =? 133)%N
  || (code c =? 160)%N.

(** [int(s)]: [None] stands for [ValueError].  The interpreter's cap on
    the number of digits of a literal is not modelled. *)
Definition parse_int (s : string) : option Z :=
  match rstrip_of int_space (lstrip_of int_space s) with
  | String "+" d => int_digits 0 false d
  | String "-" d => Z.opp <$> int_digits 0 false d
  | d => int_digits 0 false d
  end.

Definition int (s : string) : outcome Z :=
  match parse_int s with
  | Some z => Ret z
  | None => Raise ValueError
  end.

Definition digit_char (d : Z) : ascii := ascii_of_N (Z.to_N (48 + d)).

Fixpoint pos_digits (fuel : nat) (n : Z) (acc : string) : string :=
  match fuel with
  | O => acc
  | S fuel' =>
      let acc' := String (digit_char (n mod 10)) acc in
      if n <? 10 then acc' else pos_digits fuel' (n / 10) acc'
  end.

(** [str(n)] for an [int]: its decimal digits. *)
Definition str (n : Z) : string :=
  if n <? 0
  then String "-" (pos_digits (S (Z.to_nat (Z.log2 (- n)))) (- n) EmptyString)
  else pos_digits (S (Z.to_nat (Z.log2 n))) n EmptyString.

(** *** Lists *)

(** [l[i]]: a negative [i] counts from the end. *)
Definition getitem {A} (l : list A) (i : Z) : outcome A :=
  let j := if i <? 0 then i + Z.of_nat (length l) else i in
  if j <? 0 then Raise IndexError
  else match l !! Z.to_nat j with
       | Some x => Ret x
       | None => Raise IndexError
       end.

(** [l[i:]] for [0 <= i]. *)
Definition slice_from {A} (l : list A) (i : Z) : list A :=
  List.skipn (Z.to_nat i) l.

End Py.

(** ** The fragment of [re] the program uses

    Every pattern of [canvass.py] is a sequence of greedy repetitions of
    one character class, possibly behind [^].  Matching is Python's
    backtracking search: each repetition first takes as many characters
    as it can and gives them back one at a time. *)

Module Re.

Inductive atom :=
  | Bol                                                  (* ^ *)
  | Rep (cls : ascii -> bool) (lo : nat) (hi : option nat). (* cls{lo,hi} *)

Definition regex := list atom.

(** Number of leading characters of [s] in [cls], at most [hi]. *)
Fixpoint span (cls : ascii -> bool) (hi : option nat) (s : string) : nat :=
  match hi, s with
  | Some O, _ => O
  | _, EmptyString => O
  | _, String c s' =>
      if cls c then S (span cls (pred <$> hi) s') else O
  end.

(** Try [k n], [k (n-1)], ..., [k lo] and keep the first success. *)
Fixpoint backtrack (k : nat -> option nat) (lo n : nat) : option nat :=
  if (n <? lo)%nat then None
  else match k n with
       | Some m => Some m
       | None =>
           match n with
           | O => None
           | S n' => backtrack k lo n'
           end
       end.

(** [match_here r bol s]: the length of the match of [r] at the start
    of [s], where [bol] tells whether [s] starts the subject string. *)
Fixpoint match_here (r : regex) (bol : bool) (s : string) : option nat :=
  match r with
  | [] => Some O
  | Bol :: r' => if bol then match_here r' bol s else None
  | Rep cls lo hi :: r' =>
      backtrack
        (fun j =>
           Nat.add j <$>
             match_here r' (bol && (j =? 0)%nat) (Py.drop j s))
        lo (span cls hi s)
  end.

(** The successive matches of [r] in [s], left to right and without
    overlap: each with the text skipped before it, and at the end the
    text after the last match.  No pattern of the program matches the
    empty string, so an empty match counts as no match here. *)
Fixpoint finditer (fuel : nat) (r : regex) (bol : bool) (gap s : string)
  : list (string * string) * string :=
  match fuel with
  | O => ([], gap +:+ s)
  | S fuel' =>
      match match_here r bol s with
      | Some (S n) =>
          let '(ms, tl) :=
            finditer fuel' r false EmptyString (Py.drop (S n) s) in
          ((gap, Py.take (S n) s) :: ms, tl)
      | _ =>
          match s with
          | EmptyString => ([], gap)
          | String c s' =>
              finditer fuel' r false (gap +:+ String c EmptyString) s'
          end
      end
  end.

Definition matches (r : regex) (s : string) : list (string * string) * string :=
  finditer (S (Py.len s)) r true EmptyString s.

(** [re.split(r, s)] *)
Definition split (r : regex) (s : string) : list string :=
  let '(ms, tl) := matches r s in (fst <$> ms) ++ [tl].

(** [re.findall(r, s)], for a pattern that is one group or has none. *)
Definition findall (r : regex) (s : string) : list string :=
  snd <$> fst (matches r s).

Definition one (cls : ascii -> bool) : atom := Rep cls 1 (Some 1%nat).
Definition exactly (n : nat) (cls : ascii -> bool) : atom := Rep cls n (Some n).
Definition chr (c : ascii) : ascii -> bool := Ascii.eqb c.

(** A literal string as a pattern. *)
Fixpoint literal (s : string) : regex :=
  match s with
  | EmptyString => []
  | String c s' => one (chr c) :: literal s'
  end.

End Re.

(** [s.split(sep)] for a non-empty [sep]: split at the successive
    occurrences of [sep], left to right and without overlap. *)
Definition str_split (sep s : string) : list string :=
  Re.split (Re.literal sep) s.

(** ** The [csv] writer as the program configures it *)

(** A cell of a row: the program writes [None], strings and integers. *)
Inductive value :=
  | VNone
  | VStr (s : string)
  | VInt (n : Z).

Module Csv.

Definition quotechar : ascii := ascii_of_N 34.
Definition lineterminator : string :=
  String (ascii_of_N 13) (String (ascii_of_N 10) EmptyString).

Definition text_of (v : value) : string :=
  match v with
  | VNone => EmptyString
  | VStr s => s
  | VInt n => Py.str n
  end.

(** The quote character is doubled inside a field. *)
Fixpoint escape (s : string) : string :=
  match s with
  | EmptyString => EmptyString
  | String c s' =>
      if Ascii.eqb c quotechar then String c (String c (escape s'))
      else String c (escape s')
  end.

(** [QUOTE_ALL]: every field is quoted. *)
Definition field (v : value) : string :=
  String quotechar (escape (text_of v) +:+ String quotechar EmptyString).

Fixpoint join (fields : list string) : string :=
  match fields with
  | [] => EmptyString
  | [f] => f
  | f :: fs => f +:+ String "," (join fs)
  end.

(** [writer.writerow(row)] *)
Definition writerow (row : list value) : string :=
  join (field <$> row) +:+ lineterminator.

Fixpoint writerows (rows : list (list value)) : string :=
  match rows with
  | [] => EmptyString
  | r :: rs => writerow r +:+ writerows rs
  end.

End Csv.

(** ** canvass.py *)

(** *** The patterns *)

Module Pattern.
Import Re.

(** [a-zA-z]: the second range runs from "A" to lower-case "z". *)
Definition letter (c : ascii) : bool :=
  Py.between 97 122 c || Py.between 65 122 c.

(** [a-zA-z/\s().'\-] *)
Definition name_char (c : ascii) : bool :=
  letter c || chr "/" c || Py.isspace c || chr "(" c || chr ")" c
  || chr "." c || chr "'" c || chr "-" c.

(** [={2,}] *)
Definition separator : regex := [Rep (chr "=") 2 None].

(** [(\d{2}\s=\s[a-zA-z/\s().'\-]+)] *)
Definition candidate : regex :=
  [exactly 2 Py.isdecimal; one Py.isspace; one (chr "="); one Py.isspace;
   Rep name_char 1 None].

(** [^\d{4}\s\d{0,4}\s?[a-zA-z]+] *)
Definition first_precinct : regex :=
  [Bol; exactly 4 Py.isdecimal; one Py.isspace;
   Rep Py.isdecimal 0 (Some 4%nat); Rep Py.isspace 0 (Some 1%nat);
   Rep letter 1 None].

(** [\s{2,}] *)
Definition field_gap : regex := [Rep Py.isspace 2 None].

(** [\d{4}\s] *)
Definition id_prefix : regex := [exactly 4 Py.isdecimal; one Py.isspace].

(** [\d{4}] *)
Definition id : regex := [exactly 4 Py.isdecimal].

End Pattern.

(** *** Reading the report *)

(** [open(path, 'r').read()] hands out the text with "\r\n" and "\r"
    turned into "\n". *)
Fixpoint universal_newlines (s : string) : string :=
  match s with
  | EmptyString => EmptyString
  | String c s' =>
      if (Py.code c =? 13)%N then
        match s' with
        | String c' s'' =>
            if (Py.code c' =? 10)%N
            then String c' (universal_newlines s'')
            else String (ascii_of_N 10) (universal_newlines s')
        | EmptyString => String (ascii_of_N 10) EmptyString
        end
      else String c (universal_newlines s')
  end.

(** canvass.py, lines 45-50.  The file system maps the paths of the
    readable text files to their contents, and a path without entry
    stands for a missing file: a directory, a file that may not be read
    and bytes that do not decode are not in it. *)
Definition read_canvass_from_text (fs : gmap string string)
  (import_filepath : string) : outcome (list string) :=
  match fs !! import_filepath with
  | None => Raise FileNotFoundError
  | Some text =>
      let canvass := universal_newlines text in
      let contests := Re.split Pattern.separator canvass in
      final ← Py.getitem contests (-1);
      if decide (final = EmptyString)
      then Ret (removelast contests)
      else Ret contests
  end.

(** *** The title of a contest: canvass.py, lines 61-79 *)

Module Title.

Record state := State {
  contest_title : option string;
  found_title : bool;
  k : Z
}.

Definition init : state := State None false 0.

Definition cond (st : state) : bool :=
  negb (found_title st) && (k st <? 10000).

Definition body (contest : list string) (st : state) : outcome state :=
  line ← Py.getitem contest (k st);
  if Py.contains "VOTES" (Py.upper line) then
    below ← Py.getitem contest (k st + 1);
    let title := Py.rstrip below in
    below2 ← Py.getitem contest (k st + 2);
    if Py.contains "vote for not more" (Py.lower below2)
    then Ret (State (Some title) true (k st))
    else Ret (State (Some (title +:+ " " +:+ Py.rstrip (Py.lstrip below2)))
                true (k st))
  else Ret (State (contest_title st) (found_title st) (k st + 1)).

End Title.

Definition grab_contest_title (fuel : nat) (contest : string)
  : outcome (option string) :=
  let contest := Py.splitlines contest in
  st ← while fuel Title.cond (Title.body contest) Title.init;
  Ret (Title.contest_title st).

(** *** The roster of a contest: canvass.py, lines 91-99 *)

Definition add_candidate (candidates : gmap Z string) (candidate : string)
  : outcome (gmap Z string) :=
  let candidate := Py.rstrip candidate in
  let candidate := str_split " = " candidate in
  first ← Py.getitem candidate 0;
  candidate_index ← Py.int first;
  candidate_name ← Py.getitem candidate 1;
  Ret (<[candidate_index := candidate_name]> candidates).

Definition grab_candidates (contest : string) : outcome (gmap Z string) :=
  let candidates_wspace := Re.findall Pattern.candidate contest in
  for_each add_candidate candidates_wspace ∅.

(** *** The precinct region: canvass.py, lines 109-122 *)

Module Region.

Record state := State {
  found_first_precinct : bool;
  k : Z;
  contest_cleaned : option (list string)   (* [None]: not yet assigned *)
}.

Definition init : state := State false 0 None.

Definition cond (st : state) : bool := negb (found_first_precinct st).

Definition body (contest : list string) (st : state) : outcome state :=
  line ← Py.getitem contest (k st);
  let test := Re.findall Pattern.first_precinct line in
  if (0 <? length test)%nat
  then Ret (State true (k st) (Some (Py.slice_from contest (k st))))
  else if k st <? 10000
  then Ret (State (found_first_precinct st) (k st + 1) (contest_cleaned st))
  else Ret (State (found_first_precinct st) (k st) (Some [])).

End Region.

Definition verify_precincts (fuel : nat) (contest : string)
  : outcome (list string) :=
  let contest := Py.splitlines contest in
  st ← while fuel Region.cond (Region.body contest) Region.init;
  match Region.contest_cleaned st with
  | Some contest_cleaned => Ret contest_cleaned
  | None => Raise UnboundLocalError
  end.

(** *** The precinct rows: canvass.py, lines 132-153 *)

Definition id_value (precinct_ids : list string) (i : nat) : value :=
  match precinct_ids !! i with
  | Some id => VStr id
  | None => VNone
  end.

Definition precinct_row (precinct : string) : outcome (list value) :=
  let precinct := Re.split Pattern.field_gap precinct in
  cluster ← Py.getitem precinct 0;
  precinct_descrip ← Py.getitem (Re.split Pattern.id_prefix cluster) (-1);
  let precinct_votes_str := List.skipn 1 precinct in
  precinct_votes ← map_each Py.int precinct_votes_str;
  let precinct_ids := Re.findall Pattern.id cluster in
  let primary_id := id_value precinct_ids 0 in
  let secondary_id := id_value precinct_ids 1 in
  Ret ([primary_id; secondary_id; VStr precinct_descrip]
         ++ (VInt <$> precinct_votes)).

Definition grab_precincts (fuel : nat) (contest : string)
  : outcome (list (list value)) :=
  contest_cleaned ← verify_precincts fuel contest;
  map_each precinct_row contest_cleaned.

(** The vote counts of a precinct row: what follows the two identifiers
    and the name. *)
Definition votes_of (row : list value) : list value := List.skipn 3 row.

(** *** The directory of contests: canvass.py, lines 165-173 *)

Definition add_title (fuel : nat) (contests : list string)
  (titles_dict : gmap (option string) Z) (k : Z)
  : outcome (gmap (option string) Z) :=
  contest ← Py.getitem contests k;
  contest_title ← grab_contest_title fuel contest;
  match titles_dict !! contest_title with
  | None => Ret (<[contest_title := k]> titles_dict)
  | Some _ =>
      match contest_title with
      | Some title => Ret (<[Some (title +:+ Py.str k) := k]> titles_dict)
      | None => Raise TypeError
      end
  end.

Definition display_contests (fuel : nat) (fs : gmap string string)
  (import_filepath : string) : outcome (gmap (option string) Z) :=
  contests ← read_canvass_from_text fs import_filepath;
  for_each (add_title fuel contests)
    (seqZ 1 (Z.of_nat (length contests) - 1)) ∅.

(** *** The table of one contest: canvass.py, lines 187-213 *)

Definition title_value (title : option string) : value :=
  match title with
  | Some t => VStr t
  | None => VNone
  end.

Definition lookup_candidate (candidates : gmap Z string) (k : Z)
  : outcome string :=
  match candidates !! k with
  | Some name => Ret name
  | None => Raise KeyError
  end.

(** Lines 196-198: the header, by candidate index from 1 to [len]. *)
Definition header_row (candidates : gmap Z string) : outcome (list value) :=
  for_each
    (fun header k => name ← lookup_candidate candidates k;
                     Ret (header ++ [VStr name]))
    (seqZ 1 (Z.of_nat (size candidates)))
    [VStr "Primary precinct ID"; VStr "Secondary precinct ID";
     VStr "Precinct name"].

(** Lines 188-198: everything up to the header. *)
Definition contest_table (fuel : nat) (fs : gmap string string)
  (import_filepath : string) (contest_number : Z)
  : outcome (list (list value)) :=
  contests ← read_canvass_from_text fs import_filepath;
  if negb (contest_number <? Z.of_nat (length contests))
  then Raise AssertionError
  else
    contest ← Py.getitem contests contest_number;
    title ← grab_contest_title fuel contest;
    candidates ← grab_candidates contest;
    precinct_results ← grab_precincts fuel contest;
    let title_header := [title_value title] in
    header ← header_row candidates;
    Ret (title_header :: header :: precinct_results).

(** An export path counts when it is given and not empty. *)
Definition truthy (path : option string) : option string :=
  match path with
  | Some EmptyString | None => None
  | Some p => Some p
  end.

(** The call returns the table, or [None] after writing the file; the
    second component is the file system after the call.  The line
    printed on standard output is left out, and the export path is
    taken to be one that can be written. *)
Definition gen_election_table (fuel : nat) (fs : gmap string string)
  (import_filepath : string) (contest_number : Z)
  (export_filepath : option string)
  : outcome (option (list (list value))) * gmap string string :=
  match contest_table fuel fs import_filepath contest_number with
  | Ret table =>
      match truthy export_filepath with
      | Some path => (Ret None, <[path := Csv.writerows table]> fs)
      | None => (Ret (Some table), fs)
      end
  | Raise e => (Raise e, fs)
  | OutOfFuel => (OutOfFuel, fs)
  end.

(** ** Vocabulary of the statements *)

(** A line carries the title marker. *)
Definition is_marker (line : string) : bool :=
  Py.contains "VOTES" (Py.upper line).

(** A line has the shape that opens the precinct region. *)
Definition is_first_precinct (line : string) : bool :=
  (0 <? length (Re.findall Pattern.first_precinct line))%nat.

(** White space at the two ends of a string. *)
Definition starts_with_space (s : string) : bool :=
  match s with
  | EmptyString => false
  | String c _ => Py.isspace c
  end.

Fixpoint ends_with_space (s : string) : bool :=
  match s with
  | EmptyString => false
  | String c EmptyString => Py.isspace c
  | String _ s' => ends_with_space s'
  end.

(** A string of white space only. *)
Fixpoint blank (s : string) : bool :=
  match s with
  | EmptyString => true
  | String c s' => Py.isspace c && blank s'
  end.

(** The number of maximal runs of two or more "=" in [s], given that
    [run] signs "=" stand immediately before [s]. *)
Fixpoint separator_runs_from (run : nat) (s : string) : nat :=
  match s with
  | EmptyString => if (2 <=? run)%nat then 1%nat else 0%nat
  | String c s' =>
      if Ascii.eqb "=" c then separator_runs_from (S run) s'
      else ((if (2 <=? run)%nat then 1 else 0) + separator_runs_from 0 s')%nat
  end.

Definition separator_runs (s : string) : nat := separator_runs_from 0 s.

(** ** Sample reports *)

Definition newline : string := String (ascii_of_N 10) EmptyString.

(** The text made of the lines [ls], each closed by a line feed. *)
Definition text_of_lines (ls : list string) : string :=
  foldr (fun l acc => l +:+ newline +:+ acc) EmptyString ls.

Definition preamble : string :=
  "WARREN COUNTY GENERAL ELECTION" +:+ newline.

Definition rule : string := "==========================================".

Definition senate_head : list string :=
  ["PRECINCT REPORT                 VOTES  PERCENT";
   "U.S. SENATE";
   "(Vote for not more than 1)";
   "01 = Alice A";
   "02 = Bob B";
   "03 = overvotes";
   "04 = undervotes"].

(** The contest of the round-trip property, its two precinct rows spelled
    as given there. *)
Definition senate_contest_as_given : string :=
  newline +:+
  text_of_lines
    (senate_head ++
     ["0001    Precinct One     100   90   1   0";
      "0002 0005 Precinct Two   50 40 0 1"]).

Definition senate_report_as_given : string :=
  preamble +:+ rule +:+ senate_contest_as_given.

(** The same contest with one blank after a lone identifier and at least
    two blanks before every vote count. *)
Definition senate_contest : string :=
  newline +:+
  text_of_lines
    (senate_head ++
     ["0001 Precinct One     100   90   1   0";
      "0002 0005 Precinct Two   50  40  0  1"]).

Definition senate_report : string :=
  preamble +:+ rule +:+ senate_contest.

(** A contest whose roster names two candidates and whose precinct row
    carries three counts. *)
Definition uneven_contest : string :=
  text_of_lines
    ["PRECINCT REPORT                 VOTES  PERCENT";
     "COUNTY AUDITOR";
     "(Vote for not more than 1)";
     "01 = Carol C";
     "02 = overvotes";
     "0001 Precinct One     7  2  5"].

(** A contest with candidates 01 and 03 but no 02. *)
Definition gapped_contest : string :=
  newline +:+
  text_of_lines
    ["PRECINCT REPORT                 VOTES  PERCENT";
     "COUNTY AUDITOR";
     "(Vote for not more than 1)";
     "01 = Carol C";
     "03 = undervotes";
     "0001 Precinct One     7  2"].

Definition gapped_report : string :=
  preamble +:+ rule +:+ gapped_contest.

(** A contest with the given title and no precinct row. *)
Definition titled_contest (title : string) : string :=
  newline +:+
  text_of_lines
    ["PRECINCT REPORT                 VOTES  PERCENT";
     title;
     "(Vote for not more than 1)";
     "01 = Carol C"].

(** Three contests, the first and the last under one title. *)
Definition county_report : string :=
  preamble +:+ rule +:+ titled_contest "COUNTY COMMISSIONER"
  +:+ rule +:+ titled_contest "STATE ISSUE 1"
  +:+ rule +:+ titled_contest "COUNTY COMMISSIONER".

(** Three contests under one title. *)
Definition triple_report : string :=
  preamble +:+ rule +:+ titled_contest "COUNTY COMMISSIONER"
  +:+ rule +:+ titled_contest "COUNTY COMMISSIONER"
  +:+ rule +:+ titled_contest "COUNTY COMMISSIONER".

(** Four contests: one title twice, then that title followed by "2"
    twice. *)
Definition levy_report : string :=
  preamble +:+ rule +:+ titled_contest "TAX LEVY"
  +:+ rule +:+ titled_contest "TAX LEVY"
  +:+ rule +:+ titled_contest "TAX LEVY2"
  +:+ rule +:+ titled_contest "TAX LEVY2".

(** Four contests, two titles, each of them twice. *)
Definition paired_report : string :=
  preamble +:+ rule +:+ titled_contest "COUNTY COMMISSIONER"
  +:+ rule +:+ titled_contest "COUNTY COMMISSIONER"
  +:+ rule +:+ titled_contest "STATE ISSUE 1"
  +:+ rule +:+ titled_contest "STATE ISSUE 1".

(** The report whose contests carry the given titles, in order. *)
Definition report_of_titles (titles : list string) : string :=
  foldl (fun report title => report +:+ rule +:+ titled_contest title)
    preamble titles.

Definition disk : gmap string string :=
  {[ "as_given.txt" := senate_report_as_given;
     "senate.txt" := senate_report;
     "gapped.txt" := gapped_report;
     "county.txt" := county_report;
     "triple.txt" := triple_report;
     "levy.txt" := levy_report ]}.

(** ** The directory while it is built *)

(** The directory as the loop of [display_contests] holds it when it
    reaches the contest [k]: the contests 1 to [k - 1] are in. *)
Definition directory_before (fuel : nat) (contests : list string) (k : Z)
  : outcome (gmap (option string) Z) :=
  for_each (add_title fuel contests) (seqZ 1 (k - 1)) ∅.

(** [key] is in the directory when the loop reaches the contest [k]. *)
Definition taken_before (fuel : nat) (contests : list string) (k : Z)
  (key : option string) : bool :=
  match directory_before fuel contests k with
  | Ret d => bool_decide (is_Some (d !! key))
  | _ => false
  end.

(** The contest [k] finds its title in the directory and goes in under
    [key], which is its title followed by the decimal digits of [k]. *)
Definition rekeyed_to (fuel : nat) (contests : list string) (k : Z)
  (key : string) : bool :=
  match Py.getitem contests k with
  | Ret contest =>
      match grab_contest_title fuel contest with
      | Ret (Some title) =>
          taken_before fuel contests k (Some title)
          && bool_decide (key = title +:+ Py.str k)
      | _ => false
      end
  | _ => false
  end.

(** What holds of the directory [d] once the contests 1 to [m] are in,
    when [i] and [j] are contests titled [T]: the key [None] comes from
    a contest without title, and the keys [T] and [T] followed by [j]
    stand for [i] and [j] from their contests on. *)
Definition directory_inv (title : Z -> option string) (i j : Z) (T : string)
  (m : Z) (d : gmap (option string) Z) : Prop :=
  (is_Some (d !! None) -> exists k, 1 <= k <= m /\ title k = None)
  /\ (i <= m -> d !! Some T = Some i)
  /\ (j <= m -> d !! Some (T +:+ Py.str j) = Some j).

(** ** Vocabulary of the further properties *)

(** What [grab_contest_title] makes of the lines of a block, without the
    loop: the first marker line among the first ten thousand decides. *)
Definition title_of_lines (lines : list string) : outcome (option string) :=
  match list_find (fun line => is_marker line = true)
          (take (Z.to_nat 10000) lines) with
  | Some (m, _) =>
      match lines !! (m + 1)%nat, lines !! (m + 2)%nat with
      | Some title, Some second =>
          if Py.contains "vote for not more" (Py.lower second)
          then Ret (Some (Py.rstrip title))
          else Ret (Some (Py.rstrip title +:+ " "
                          +:+ Py.rstrip (Py.lstrip second)))
      | _, _ => Raise IndexError
      end
  | None =>
      if (10000 <=? Z.of_nat (length lines)) then Ret None
      else Raise IndexError
  end.

(** What [verify_precincts] makes of the lines of a block, without the
    loop: the first precinct-shaped line among the first ten thousand
    and one decides; [OutOfFuel] stands for a loop that does not end. *)
Definition region_of_lines (lines : list string) : outcome (list string) :=
  match list_find (fun line => is_first_precinct line = true)
          (take (Z.to_nat 10001) lines) with
  | Some (m, _) => Ret (drop m lines)
  | None =>
      if (10000 <? Z.of_nat (length lines)) then OutOfFuel
      else Raise IndexError
  end.

(** Every character of [s] is in [cls]. *)
Fixpoint every (cls : ascii -> bool) (s : string) : bool :=
  match s with
  | EmptyString => true
  | String c s' => cls c && every cls s'
  end.

Definition four_digits (s : string) : bool :=
  (Py.len s =? 4)%nat && every Py.isdecimal s.

(** A cell that holds a precinct identifier, or none. *)
Definition id_cell (v : value) : bool :=
  match v with
  | VNone => true
  | VStr s => four_digits s
  | VInt _ => false
  end.

(** An entry of a roster as the pattern and the split shape it. *)
Definition roster_entry (k : Z) (name : string) : Prop :=
  0 <= k <= 99
  /\ name <> EmptyString
  /\ ends_with_space name = false
  /\ every Pattern.name_char name = true.

(** A report whose second contest block has no marker line. *)
Definition unmarked_report : string :=
  preamble +:+ rule +:+ titled_contest "COUNTY COMMISSIONER"
  +:+ rule +:+ newline +:+ text_of_lines ["END OF REPORT"].

(** The text made of the pieces with the separators put back between
    them, in order; separators left over close the text. *)
Fixpoint interleave (pieces seps : list string) : string :=
  match pieces with
  | [] => foldr String.append EmptyString seps
  | p :: ps =>
      match seps with
      | [] => p +:+ interleave ps []
      | m :: ms => p +:+ m +:+ interleave ps ms
      end
  end.

(** A run of two or more "=". *)
Definition is_rule (s : string) : bool :=
  (2 <=? Py.len s)%nat && every (Re.chr "=") s.



(** The text skipped, the matches and the rest, put together again in
    the order of the scan. *)
Definition rejoin (ms : list (string * string)) (tl : string) : string :=
  foldr (fun gm acc => gm.1 +:+ gm.2 +:+ acc) tl ms.

(** * Properties *)

(** ** Indexing and loops *)

Lemma getitem_nat {A} (l : list A) (i : Z) :
  0 <= i ->
  Py.getitem l i =
    match l !! Z.to_nat i with
    | Some x => Ret x
    | None => Raise IndexError
    end.
Proof.
  intros Hi. unfold Py.getitem.
  destruct (i <? 0) eqn:E; [apply Z.ltb_lt in E; lia|].
  now rewrite E.
Qed.

Lemma getitem_past_end {A} (l : list A) (i : Z) :
  Z.of_nat (length l) <= i -> Py.getitem l i = Raise IndexError.
Proof.
  intros Hi. rewrite getitem_nat by lia.
  rewrite lookup_ge_None_2; [reflexivity | lia].
Qed.

Lemma getitem_last {A} (l : list A) (x : A) :
  Py.getitem (l ++ [x]) (-1) = Ret x.
Proof.
  unfold Py.getitem. cbn [Z.ltb Z.compare]. rewrite length_app. cbn [length].
  replace (-1 + Z.of_nat (length l + 1))%Z with (Z.of_nat (length l)) by lia.
  destruct (Z.of_nat (length l) <? 0) eqn:E; [apply Z.ltb_lt in E; lia|].
  rewrite Nat2Z.id, lookup_app_r, Nat.sub_diag by lia. reflexivity.
Qed.

Lemma getitem_first {A} (x : A) (l : list A) : Py.getitem (x :: l) 0 = Ret x.
Proof. reflexivity. Qed.

Lemma while_stop {S} fuel (cond : S -> bool) body st :
  cond st = false -> while fuel cond body st = Ret st.
Proof. intros H. destruct fuel; cbn; now rewrite H. Qed.

Lemma while_step {S} fuel (cond : S -> bool) body st :
  cond st = true ->
  while (Datatypes.S fuel) cond body st
  = (st' ← body st; while fuel cond body st').
Proof. intros H. cbn. now rewrite H. Qed.

(** ** The title scan *)

Lemma title_body_skip contest t f (j : Z) line :
  0 <= j -> contest !! Z.to_nat j = Some line -> is_marker line = false ->
  Title.body contest (Title.State t f j) = Ret (Title.State t f (j + 1)).
Proof.
  intros Hj Hline Hm. unfold Title.body. cbn [Title.k].
  rewrite (getitem_nat contest j), Hline by lia. cbn [mbind outcome_bind].
  unfold is_marker in Hm. now rewrite Hm.
Qed.

Lemma title_body_off contest t f (j : Z) :
  Z.of_nat (length contest) <= j ->
  Title.body contest (Title.State t f j) = Raise IndexError.
Proof.
  intros Hj. unfold Title.body. cbn [Title.k].
  now rewrite (getitem_past_end contest j).
Qed.

(** The scan walks over lines without the marker and raises once it is
    past the last line. *)
Lemma title_scan_runs_off (contest : list string) :
  Forall (fun line => is_marker line = false) contest ->
  Z.of_nat (length contest) < 10000 ->
  forall (fuel : nat) (j : nat),
    (j <= length contest)%nat ->
    (length contest - j < fuel)%nat ->
    while fuel Title.cond (Title.body contest)
      (Title.State None false (Z.of_nat j)) = Raise IndexError.
Proof.
  intros Hno Hlen fuel. induction fuel as [|fuel IH]; intros j Hj Hfuel; [lia|].
  rewrite while_step by (unfold Title.cond; cbn; apply Z.ltb_lt; lia).
  destruct (contest !! j) as [line|] eqn:Hline.
  - rewrite (title_body_skip _ _ _ _ line); [|lia|now rewrite Nat2Z.id|].
    + cbn [mbind outcome_bind]. apply lookup_lt_Some in Hline.
      replace (Z.of_nat j + 1) with (Z.of_nat (S j)) by lia.
      apply IH; lia.
    + rewrite Forall_forall in Hno. apply Hno.
      eapply list_elem_of_lookup_2; eauto.
  - apply lookup_ge_None in Hline. rewrite title_body_off by lia. reflexivity.
Qed.

(** With ten thousand lines or more and no marker among the first ten
    thousand, the scan stops at the ceiling and the title stays [None]. *)
Lemma title_scan_hits_ceiling (contest : list string) :
  (forall (i : nat) line,
      Z.of_nat i < 10000 -> contest !! i = Some line -> is_marker line = false) ->
  10000 <= Z.of_nat (length contest) ->
  forall (fuel : nat) (j : nat),
    Z.of_nat j <= 10000 ->
    10000 - Z.of_nat j <= Z.of_nat fuel ->
    while fuel Title.cond (Title.body contest)
      (Title.State None false (Z.of_nat j)) = Ret (Title.State None false 10000).
Proof.
  intros Hno Hlen fuel. induction fuel as [|fuel IH]; intros j Hj Hfuel.
  - replace (Z.of_nat j) with 10000 by lia. now apply while_stop.
  - destruct (decide (Z.of_nat j = 10000)) as [->|Hne]; [now apply while_stop|].
    rewrite while_step by (unfold Title.cond; cbn; apply Z.ltb_lt; lia).
    destruct (contest !! j) as [line|] eqn:Hline.
    2:{ apply lookup_ge_None in Hline. lia. }
    rewrite (title_body_skip _ _ _ _ line); [|lia|now rewrite Nat2Z.id|].
    + cbn [mbind outcome_bind].
      replace (Z.of_nat j + 1) with (Z.of_nat (S j)) by lia.
      apply IH; lia.
    + eapply Hno; eauto; lia.
Qed.

(** A pass of the title loop raises or returns: it has no loop of its
    own. *)
Lemma title_body_finishes contest st : Title.body contest st <> OutOfFuel.
Proof.
  unfold Title.body, Py.getitem.
  repeat match goal with
         | |- context [if ?b then _ else _] => destruct b
         | |- context [match ?l !! ?i with _ => _ end] => destruct (l !! i)
         | _ => progress cbn [mbind outcome_bind]
         end; discriminate.
Qed.

Lemma title_body_k contest st st' :
  Title.body contest st = Ret st' ->
  Title.found_title st' = true \/ Title.k st' = Title.k st + 1.
Proof.
  unfold Title.body, Py.getitem.
  repeat match goal with
         | |- context [if ?b then _ else _] => destruct b
         | |- context [match ?l !! ?i with _ => _ end] => destruct (l !! i)
         | _ => progress cbn [mbind outcome_bind]
         end; intros [= <-]; cbn; auto.
Qed.

(** The title scan never exhausts a budget above its ceiling. *)
Lemma title_scan_total (contest : list string) :
  forall (fuel : nat) st,
    10000 - Title.k st < Z.of_nat fuel ->
    while fuel Title.cond (Title.body contest) st <> OutOfFuel.
Proof.
  induction fuel as [|fuel IH]; intros st Hfuel.
  - rewrite while_stop; [discriminate|].
    unfold Title.cond. replace (Title.k st <? 10000) with false;
      [apply andb_false_r|].
    symmetry. apply Z.ltb_ge. lia.
  - destruct (Title.cond st) eqn:Hc; [|now rewrite while_stop].
    rewrite while_step by assumption.
    destruct (Title.body contest st) as [st'| |] eqn:Hb;
      cbn [mbind outcome_bind]; [|discriminate|].
    + destruct (title_body_k _ _ _ Hb) as [Hf|Hk].
      * rewrite while_stop; [discriminate|].
        unfold Title.cond. now rewrite Hf.
      * apply IH. lia.
    + now apply title_body_finishes in Hb.
Qed.

Lemma grab_contest_title_total (fuel : nat) (contest : string) :
  10000 < Z.of_nat fuel -> grab_contest_title fuel contest <> OutOfFuel.
Proof.
  intros Hfuel. unfold grab_contest_title.
  pose proof (title_scan_total (Py.splitlines contest) fuel Title.init) as H.
  destruct (while _ _ _ _); cbn [mbind outcome_bind]; try discriminate.
  exfalso. apply H; [cbn; lia | reflexivity].
Qed.

(** C2. A contest block without a "VOTES" line and with fewer lines than
    the scan ceiling does not yield an absent title: [grab_contest_title]
    reads past the last line and raises [IndexError]. *)
Theorem grab_contest_title_no_marker_raises (fuel : nat) (contest : string) :
  Forall (fun line => is_marker line = false) (Py.splitlines contest) ->
  Z.of_nat (length (Py.splitlines contest)) < 10000 ->
  (length (Py.splitlines contest) < fuel)%nat ->
  grab_contest_title fuel contest = Raise IndexError.
Proof.
  intros Hno Hlen Hfuel. unfold grab_contest_title.
  change Title.init with (Title.State None false (Z.of_nat 0)).
  rewrite title_scan_runs_off; auto; lia.
Qed.

Lemma grab_contest_title_no_marker_raises_witness :
  grab_contest_title 5 "CANVASS REPORT - NO CONTEST HERE" = Raise IndexError.
Proof.
  apply grab_contest_title_no_marker_raises.
  - vm_compute. repeat constructor.
  - vm_compute. reflexivity.
  - vm_compute. lia.
Defined.

(** Only a block of ten thousand lines or more, none of the first ten
    thousand carrying the marker, makes the scan stop at its ceiling with
    the title absent. *)
Lemma grab_contest_title_no_marker_ceiling (fuel : nat) (contest : string) :
  (forall (i : nat) line,
      Z.of_nat i < 10000 -> Py.splitlines contest !! i = Some line ->
      is_marker line = false) ->
  10000 <= Z.of_nat (length (Py.splitlines contest)) ->
  10000 <= Z.of_nat fuel ->
  grab_contest_title fuel contest = Ret None.
Proof.
  intros Hno Hlen Hfuel. unfold grab_contest_title.
  change Title.init with (Title.State None false (Z.of_nat 0)).
  rewrite title_scan_hits_ceiling; auto; lia.
Qed.

(** ** The precinct scan *)

Lemma region_body_skip contest f c (j : Z) line :
  0 <= j < 10000 -> contest !! Z.to_nat j = Some line ->
  is_first_precinct line = false ->
  Region.body contest (Region.State f j c) = Ret (Region.State f (j + 1) c).
Proof.
  intros Hj Hline Hm. unfold Region.body. cbn [Region.k].
  rewrite (getitem_nat contest j), Hline by lia. cbn [mbind outcome_bind].
  unfold is_first_precinct in Hm. rewrite Hm.
  replace (j <? 10000) with true by (symmetry; apply Z.ltb_lt; lia).
  reflexivity.
Qed.

Lemma region_body_stuck contest f c (j : Z) line :
  10000 <= j -> contest !! Z.to_nat j = Some line ->
  is_first_precinct line = false ->
  Region.body contest (Region.State f j c) = Ret (Region.State f j (Some [])).
Proof.
  intros Hj Hline Hm. unfold Region.body. cbn [Region.k].
  rewrite (getitem_nat contest j), Hline by lia. cbn [mbind outcome_bind].
  unfold is_first_precinct in Hm. rewrite Hm.
  replace (j <? 10000) with false by (symmetry; apply Z.ltb_ge; lia).
  reflexivity.
Qed.

Lemma region_body_off contest f c (j : Z) :
  Z.of_nat (length contest) <= j ->
  Region.body contest (Region.State f j c) = Raise IndexError.
Proof.
  intros Hj. unfold Region.body. cbn [Region.k].
  now rewrite (getitem_past_end contest j).
Qed.

Lemma region_scan_runs_off (contest : list string) :
  Forall (fun line => is_first_precinct line = false) contest ->
  Z.of_nat (length contest) <= 10000 ->
  forall (fuel : nat) (j : nat) c,
    (j <= length contest)%nat ->
    (length contest - j < fuel)%nat ->
    while fuel Region.cond (Region.body contest)
      (Region.State false (Z.of_nat j) c) = Raise IndexError.
Proof.
  intros Hno Hlen fuel.
  induction fuel as [|fuel IH]; intros j c Hj Hfuel; [lia|].
  rewrite while_step by reflexivity.
  destruct (contest !! j) as [line|] eqn:Hline.
  - pose proof (lookup_lt_Some _ _ _ Hline).
    rewrite (region_body_skip _ _ _ _ line); [|lia|now rewrite Nat2Z.id|].
    + cbn [mbind outcome_bind].
      replace (Z.of_nat j + 1) with (Z.of_nat (S j)) by lia.
      apply IH; lia.
    + rewrite Forall_forall in Hno. apply Hno.
      eapply list_elem_of_lookup_2; eauto.
  - apply lookup_ge_None in Hline. rewrite region_body_off by lia. reflexivity.
Qed.

(** Past the ceiling the loop assigns the empty region but never sets
    [found_first_precinct]: it goes round for ever. *)
Lemma region_scan_spins (contest : list string) :
  (forall (i : nat) line,
      Z.of_nat i <= 10000 -> contest !! i = Some line ->
      is_first_precinct line = false) ->
  10000 < Z.of_nat (length contest) ->
  forall (fuel : nat) (j : nat) c,
    Z.of_nat j <= 10000 ->
    while fuel Region.cond (Region.body contest)
      (Region.State false (Z.of_nat j) c) = OutOfFuel.
Proof.
  intros Hno Hlen fuel.
  induction fuel as [|fuel IH]; intros j c Hj; [reflexivity|].
  rewrite while_step by reflexivity.
  destruct (contest !! j) as [line|] eqn:Hline.
  2:{ apply lookup_ge_None in Hline. lia. }
  assert (Hm : is_first_precinct line = false) by (eapply Hno; eauto).
  destruct (decide (Z.of_nat j = 10000)) as [Heq|Hne].
  - rewrite (region_body_stuck _ _ _ _ line); [|lia|now rewrite Nat2Z.id|done].
    cbn [mbind outcome_bind]. apply IH; lia.
  - rewrite (region_body_skip _ _ _ _ line); [|lia|now rewrite Nat2Z.id|done].
    cbn [mbind outcome_bind].
    replace (Z.of_nat j + 1) with (Z.of_nat (S j)) by lia.
    apply IH; lia.
Qed.

(** C3. A contest block in which no line has the shape of a precinct row
    does not yield an empty region: with at most ten thousand lines
    [verify_precincts] reads past the last line and raises
    [IndexError]. *)
Theorem verify_precincts_no_precinct_raises (fuel : nat) (contest : string) :
  Forall (fun line => is_first_precinct line = false) (Py.splitlines contest) ->
  Z.of_nat (length (Py.splitlines contest)) <= 10000 ->
  (length (Py.splitlines contest) < fuel)%nat ->
  verify_precincts fuel contest = Raise IndexError.
Proof.
  intros Hno Hlen Hfuel. unfold verify_precincts.
  change Region.init with (Region.State false (Z.of_nat 0) None).
  rewrite region_scan_runs_off; auto; lia.
Qed.

Lemma verify_precincts_no_precinct_raises_witness :
  verify_precincts 5 "ISSUE 3 - TOTALS ONLY" = Raise IndexError.
Proof.
  apply verify_precincts_no_precinct_raises.
  - vm_compute. repeat constructor.
  - vm_compute. discriminate.
  - vm_compute. lia.
Defined.

(** With more than ten thousand lines and no precinct row among the first
    ten thousand and one, [verify_precincts] does not come back, whatever
    the budget. *)
Lemma verify_precincts_no_precinct_diverges (contest : string) :
  (forall (i : nat) line,
      Z.of_nat i <= 10000 -> Py.splitlines contest !! i = Some line ->
      is_first_precinct line = false) ->
  10000 < Z.of_nat (length (Py.splitlines contest)) ->
  forall fuel : nat, verify_precincts fuel contest = OutOfFuel.
Proof.
  intros Hno Hlen fuel. unfold verify_precincts.
  change Region.init with (Region.State false (Z.of_nat 0) None).
  rewrite region_scan_spins; auto; lia.
Qed.

(** ** Precinct rows *)

Lemma map_each_Ret {A B} (f : A -> outcome B) l ys :
  map_each f l = Ret ys -> Forall2 (fun x y => f x = Ret y) l ys.
Proof.
  revert ys. induction l as [|x l IH]; intros ys; cbn.
  - intros [= <-]. constructor.
  - destruct (f x) as [y| |] eqn:Hx; cbn [mbind outcome_bind]; try discriminate.
    destruct (map_each f l) as [ys'| |]; cbn [mbind outcome_bind];
      try discriminate.
    intros [= <-]. constructor; auto.
Qed.

Lemma map_each_raises {A B} (f : A -> outcome B) l e :
  Forall (fun x => f x = Raise e \/ returns (f x)) l ->
  Exists (fun x => f x = Raise e) l ->
  map_each f l = Raise e.
Proof.
  induction l as [|x l IH]; intros Hall Hex; [inversion Hex|].
  apply Forall_cons in Hall as [Hx Hall]. cbn.
  destruct Hx as [-> | [y Hy]]; [reflexivity|].
  apply Exists_cons in Hex as [Hx | Hex]; [congruence|].
  rewrite Hy. cbn [mbind outcome_bind]. now rewrite IH.
Qed.

Lemma int_cases s : Py.int s = Raise ValueError \/ returns (Py.int s).
Proof. unfold Py.int, returns. destruct (Py.parse_int s); eauto. Qed.

Lemma map_each_int_cases l :
  map_each Py.int l = Raise ValueError \/ returns (map_each Py.int l).
Proof.
  induction l as [|x l IH]; cbn; [right; now eexists|].
  destruct (int_cases x) as [-> | [y ->]]; [now left|].
  cbn [mbind outcome_bind].
  destruct IH as [-> | [ys ->]]; [now left|]. right. now eexists.
Qed.

Lemma split_snoc r s : exists l x, Re.split r s = l ++ [x].
Proof. unfold Re.split. destruct (Re.matches r s) as [ms tl]. eauto. Qed.

Lemma split_cons r s : exists x l, Re.split r s = x :: l.
Proof.
  destruct (split_snoc r s) as (l & x & ->). destruct l; cbn; eauto.
Qed.

(** What [precinct_row] does with the fields of a line. *)
Lemma precinct_row_fields (precinct : string) :
  exists cluster rest descrip,
    Re.split Pattern.field_gap precinct = cluster :: rest /\
    precinct_row precinct =
      (precinct_votes ← map_each Py.int rest;
       Ret ([id_value (Re.findall Pattern.id cluster) 0;
             id_value (Re.findall Pattern.id cluster) 1;
             VStr descrip] ++ (VInt <$> precinct_votes))).
Proof.
  destruct (split_cons Pattern.field_gap precinct) as (cluster & rest & Hs).
  destruct (split_snoc Pattern.id_prefix cluster) as (l & descrip & Hd).
  exists cluster, rest, descrip. split; [exact Hs|].
  unfold precinct_row. rewrite Hs, getitem_first. cbn [mbind outcome_bind].
  rewrite Hd, getitem_last. reflexivity.
Qed.

Lemma precinct_row_cases precinct :
  precinct_row precinct = Raise ValueError \/ returns (precinct_row precinct).
Proof.
  destruct (precinct_row_fields precinct) as (c & rest & d & _ & ->).
  destruct (map_each_int_cases rest) as [-> | [vs ->]]; [now left|].
  right. now eexists.
Qed.

Lemma map_each_length {A B} (f : A -> outcome B) l ys :
  map_each f l = Ret ys -> length ys = length l.
Proof. intros H. apply map_each_Ret in H. symmetry. eapply Forall2_length, H. Qed.

Lemma for_each_finishes {A S} (f : S -> A -> outcome S) l acc :
  (forall acc x, f acc x <> OutOfFuel) -> for_each f l acc <> OutOfFuel.
Proof.
  intros Hf. revert acc. induction l as [|x l IH]; intros acc; cbn;
    [discriminate|].
  specialize (Hf acc x).
  destruct (f acc x); cbn [mbind outcome_bind]; [apply IH|discriminate|done].
Qed.

Lemma grab_candidates_finishes contest : grab_candidates contest <> OutOfFuel.
Proof.
  apply for_each_finishes. intros acc x. unfold add_candidate, Py.getitem, Py.int.
  repeat match goal with
         | |- context [if ?b then _ else _] => destruct b
         | |- context [match ?l !! ?i with _ => _ end] => destruct (l !! i)
         | |- context [match Py.parse_int ?s with _ => _ end] =>
             destruct (Py.parse_int s)
         | _ => progress cbn [mbind outcome_bind]
         end; discriminate.
Qed.

(** C5. The votes of a precinct record are as many as the fields after
    the first in its own line, whatever the size of the roster: the
    records of [grab_precincts] follow the lines of the region one by
    one, each with one count per field. *)
Theorem grab_precincts_votes_per_field (fuel : nat) (contest : string)
  (region : list string) (rows : list (list value)) :
  verify_precincts fuel contest = Ret region ->
  grab_precincts fuel contest = Ret rows ->
  Forall2
    (fun line row =>
       length (votes_of row)
       = (length (Re.split Pattern.field_gap line) - 1)%nat)
    region rows.
Proof.
  intros Hv Hg. unfold grab_precincts in Hg. rewrite Hv in Hg.
  cbn [mbind outcome_bind] in Hg. apply map_each_Ret in Hg.
  eapply Forall2_impl; [exact Hg|]. intros line row Hrow. cbn beta in Hrow.
  destruct (precinct_row_fields line) as (c & rest & d & Hs & Hr).
  rewrite Hr in Hrow. rewrite Hs.
  destruct (map_each Py.int rest) as [votes| |] eqn:Hvotes;
    cbn [mbind outcome_bind] in Hrow; try discriminate.
  injection Hrow as <-. apply map_each_length in Hvotes.
  unfold votes_of. cbn [app List.skipn].
  rewrite drop_0, length_fmap. cbn [length]. lia.
Qed.

Lemma grab_precincts_votes_per_field_witness :
  Forall2
    (fun line row =>
       length (votes_of row)
       = (length (Re.split Pattern.field_gap line) - 1)%nat)
    ["0001 Precinct One     7  2  5"]
    [[VStr "0001"; VNone; VStr "Precinct One"; VInt 7; VInt 2; VInt 5]].
Proof.
  apply (grab_precincts_votes_per_field 20 uneven_contest);
    vm_compute; reflexivity.
Defined.

(** C5, as stated, fails: a roster of two entries beside a record of
    three votes. *)
Lemma votes_length_differs_from_roster :
  let roster : gmap Z string := {[ 1 := "Carol C"; 2 := "overvotes" ]} in
  let record := [VStr "0001"; VNone; VStr "Precinct One";
                 VInt 7; VInt 2; VInt 5] in
  grab_candidates uneven_contest = Ret roster
  /\ grab_precincts 20 uneven_contest = Ret [record]
  /\ length (votes_of record) <> size roster.
Proof. repeat split; vm_compute; (reflexivity || discriminate). Qed.

(** C6. A field after the first that [int] rejects, in any line of the
    precinct region, makes [grab_precincts] raise [ValueError], and the
    build of that contest in [gen_election_table] raises too and leaves
    the file system as it was. *)
Theorem malformed_vote_is_fatal (fuel : nat) (fs : gmap string string)
  (import_filepath : string) (contest_number : Z) (export : option string)
  (contests : list string) (contest : string) (region : list string)
  (line field : string) :
  read_canvass_from_text fs import_filepath = Ret contests ->
  Py.getitem contests contest_number = Ret contest ->
  verify_precincts fuel contest = Ret region ->
  line ∈ region ->
  field ∈ List.skipn 1 (Re.split Pattern.field_gap line) ->
  Py.parse_int field = None ->
  10000 < Z.of_nat fuel ->
  grab_precincts fuel contest = Raise ValueError
  /\ exists e,
      gen_election_table fuel fs import_filepath contest_number export
      = (Raise e, fs).
Proof.
  intros Hread Hsel Hv Hline Hfield Hint Hfuel.
  assert (Hg : grab_precincts fuel contest = Raise ValueError).
  { unfold grab_precincts. rewrite Hv. cbn [mbind outcome_bind].
    apply map_each_raises.
    - apply Forall_forall. intros x _. apply precinct_row_cases.
    - apply Exists_exists. exists line. split; [exact Hline|].
      destruct (precinct_row_fields line) as (c & rest & d & Hs & ->).
      rewrite Hs in Hfield. cbn [List.skipn] in Hfield.
      rewrite (map_each_raises Py.int rest ValueError); [reflexivity| |].
      + apply Forall_forall. intros x _. apply int_cases.
      + apply Exists_exists. exists field. split; [exact Hfield|].
        unfold Py.int. now rewrite Hint. }
  split; [exact Hg|].
  unfold gen_election_table, contest_table. rewrite Hread.
  cbn [mbind outcome_bind].
  destruct (negb _); [now eexists|].
  rewrite Hsel. cbn [mbind outcome_bind].
  pose proof (grab_contest_title_total fuel contest Hfuel) as Ht.
  destruct (grab_contest_title fuel contest) as [t|e|];
    cbn [mbind outcome_bind]; [|now eexists|done].
  destruct (grab_candidates contest) as [c|e|] eqn:Hc;
    cbn [mbind outcome_bind]; [|now eexists|].
  - rewrite Hg. cbn [mbind outcome_bind]. now eexists.
  - now apply grab_candidates_finishes in Hc.
Qed.

Lemma malformed_vote_is_fatal_witness :
  grab_precincts (Z.to_nat 10001) senate_contest_as_given = Raise ValueError
  /\ exists e,
      gen_election_table (Z.to_nat 10001) disk "as_given.txt" 1 None
      = (Raise e, disk).
Proof.
  apply (malformed_vote_is_fatal (Z.to_nat 10001) disk "as_given.txt" 1 None
           [preamble; senate_contest_as_given] senate_contest_as_given
           ["0002 0005 Precinct Two   50 40 0 1"]
           "0002 0005 Precinct Two   50 40 0 1" "50 40 0 1").
  - vm_compute. reflexivity.
  - vm_compute. reflexivity.
  - vm_compute. reflexivity.
  - apply list_elem_of_here.
  - vm_compute. apply list_elem_of_here.
  - vm_compute. reflexivity.
  - vm_compute. reflexivity.
Defined.

(** ** The table of one contest *)

Lemma getitem_negative {A} (l : list A) (i : Z) :
  i < 0 -> - Z.of_nat (length l) <= i ->
  Py.getitem l i = Py.getitem l (i + Z.of_nat (length l)).
Proof.
  intros Hneg Hlow. unfold Py.getitem. cbv zeta.
  assert (E1 : (i <? 0) = true) by (apply Z.ltb_lt; lia).
  assert (E2 : (i + Z.of_nat (length l) <? 0) = false) by (apply Z.ltb_ge; lia).
  rewrite E1. cbv iota. rewrite !E2. reflexivity.
Qed.

Lemma getitem_too_negative {A} (l : list A) (i : Z) :
  i < - Z.of_nat (length l) -> Py.getitem l i = Raise IndexError.
Proof.
  intros Hlow. unfold Py.getitem. cbv zeta.
  assert (E1 : (i <? 0) = true) by (apply Z.ltb_lt; lia).
  assert (E2 : (i + Z.of_nat (length l) <? 0) = true) by (apply Z.ltb_lt; lia).
  rewrite E1, E2. reflexivity.
Qed.

(** C7. A contest number at or above the number of blocks fails the
    assertion: no table, no file.  A negative contest number passes the
    assertion: from minus the number of blocks up to -1 it selects the
    block counted from the end, exactly as the contest number plus the
    number of blocks does, and below that it raises [IndexError]. *)
Theorem contest_number_out_of_range (fuel : nat) (fs : gmap string string)
  (import_filepath : string) (contest_number : Z) (export : option string)
  (contests : list string) :
  read_canvass_from_text fs import_filepath = Ret contests ->
  contest_number < 0 \/ Z.of_nat (length contests) <= contest_number ->
  gen_election_table fuel fs import_filepath contest_number export =
    if decide (Z.of_nat (length contests) <= contest_number)
    then (Raise AssertionError, fs)
    else if decide (- Z.of_nat (length contests) <= contest_number)
    then gen_election_table fuel fs import_filepath
           (contest_number + Z.of_nat (length contests)) export
    else (Raise IndexError, fs).
Proof.
  intros Hread Hout. unfold gen_election_table, contest_table.
  rewrite Hread. cbn [mbind outcome_bind].
  destruct (decide (Z.of_nat (length contests) <= contest_number)) as [Hge|Hlt].
  - replace (contest_number <? Z.of_nat (length contests)) with false
      by (symmetry; apply Z.ltb_ge; lia).
    reflexivity.
  - replace (contest_number <? Z.of_nat (length contests)) with true
      by (symmetry; apply Z.ltb_lt; lia).
    cbn [negb].
    destruct (decide (- Z.of_nat (length contests) <= contest_number))
      as [Hlow|Hlow].
    + replace (contest_number + Z.of_nat (length contests)
               <? Z.of_nat (length contests)) with true
        by (symmetry; apply Z.ltb_lt; lia).
      cbn [negb]. rewrite getitem_negative by lia. reflexivity.
    + rewrite getitem_too_negative by lia. reflexivity.
Qed.

Lemma contest_number_out_of_range_witness :
  gen_election_table 50 disk "senate.txt" (-1) None
  = gen_election_table 50 disk "senate.txt" 1 None.
Proof.
  apply (contest_number_out_of_range 50 disk "senate.txt" (-1) None
           [preamble; senate_contest]).
  - vm_compute. reflexivity.
  - left. lia.
Defined.

(** C7, as stated, fails: contest number -1 yields a table, and with an
    export path a file. *)
Lemma negative_contest_number_is_served :
  (exists table,
      gen_election_table 50 disk "senate.txt" (-1) None
      = (Ret (Some table), disk))
  /\ exists text,
      (gen_election_table 50 disk "senate.txt" (-1) (Some "senate.csv")).2
        !! "senate.csv" = Some text.
Proof. split; eexists; vm_compute; reflexivity. Qed.

(** The header loop raises at the first index that the roster lacks. *)
Lemma header_loop_raises (candidates : gmap Z string) ks header :
  Exists (fun k => candidates !! k = None) ks ->
  for_each
    (fun header k => name ← lookup_candidate candidates k;
                     Ret (header ++ [VStr name])) ks header
  = Raise KeyError.
Proof.
  revert header. induction ks as [|k ks IH]; intros header Hex;
    [inversion Hex|].
  cbn [for_each].
  destruct (candidates !! k) as [name|] eqn:Hk.
  - assert (lookup_candidate candidates k = Ret name) as ->
      by (unfold lookup_candidate; now rewrite Hk).
    cbn [mbind outcome_bind].
    apply Exists_cons in Hex as [Hx | Hex]; [congruence|]. now apply IH.
  - assert (lookup_candidate candidates k = Raise KeyError) as ->
      by (unfold lookup_candidate; now rewrite Hk).
    reflexivity.
Qed.

(** A roster that holds every index from 1 to its size holds nothing
    else. *)
Lemma full_roster_dom (candidates : gmap Z string) :
  Forall (fun k => is_Some (candidates !! k))
    (seqZ 1 (Z.of_nat (size candidates))) ->
  dom candidates = list_to_set (seqZ 1 (Z.of_nat (size candidates))).
Proof.
  intros Hall. symmetry. apply set_subseteq_size_eq.
  - intros k Hk. apply elem_of_list_to_set in Hk.
    apply elem_of_dom. rewrite Forall_forall in Hall. now apply Hall.
  - rewrite size_dom, size_list_to_set by apply NoDup_seqZ.
    rewrite length_seqZ. lia.
Qed.

Lemma gap_hits_header_loop (candidates : gmap Z string) (i m : Z) :
  is_Some (candidates !! m) -> 1 <= i <= m -> candidates !! i = None ->
  Exists (fun k => candidates !! k = None)
    (seqZ 1 (Z.of_nat (size candidates))).
Proof.
  intros Hm Hi Hgap.
  destruct (decide (Forall (fun k => is_Some (candidates !! k))
                      (seqZ 1 (Z.of_nat (size candidates))))) as [Hall|Hnot].
  - exfalso. apply full_roster_dom in Hall.
    assert (Hmd : m ∈ dom candidates) by now apply elem_of_dom.
    rewrite Hall in Hmd. apply elem_of_list_to_set, elem_of_seqZ in Hmd.
    assert (Hid : i ∈ dom candidates).
    { rewrite Hall. apply elem_of_list_to_set, elem_of_seqZ. lia. }
    apply elem_of_dom in Hid. rewrite Hgap in Hid. now destruct Hid.
  - apply not_Forall_Exists in Hnot; [|intros k; apply _].
    eapply Exists_impl; [exact Hnot|]. intros k Hk. cbn in Hk.
    destruct (candidates !! k); [|reflexivity].
    exfalso. apply Hk. now eexists.
Qed.

(** C10. When the roster of a contest lacks an index between 1 and one
    of its indices, the header loop raises [KeyError], and so does
    [gen_election_table] once the title and the precinct rows are there;
    nothing is written. *)
Theorem roster_gap_is_fatal (fuel : nat) (fs : gmap string string)
  (import_filepath : string) (contest_number : Z) (export : option string)
  (contests : list string) (contest : string)
  (candidates : gmap Z string) (i m : Z) :
  read_canvass_from_text fs import_filepath = Ret contests ->
  contest_number < Z.of_nat (length contests) ->
  Py.getitem contests contest_number = Ret contest ->
  returns (grab_contest_title fuel contest) ->
  grab_candidates contest = Ret candidates ->
  returns (grab_precincts fuel contest) ->
  is_Some (candidates !! m) -> 1 <= i <= m -> candidates !! i = None ->
  header_row candidates = Raise KeyError
  /\ gen_election_table fuel fs import_filepath contest_number export
     = (Raise KeyError, fs).
Proof.
  intros Hread Hn Hsel [title Ht] Hc [rows Hr] Hm Hi Hgap.
  assert (Hh : header_row candidates = Raise KeyError).
  { apply header_loop_raises. eapply gap_hits_header_loop; eauto. }
  split; [exact Hh|].
  unfold gen_election_table, contest_table. rewrite Hread.
  cbn [mbind outcome_bind].
  replace (contest_number <? Z.of_nat (length contests)) with true
    by (symmetry; apply Z.ltb_lt; lia).
  cbn [negb]. rewrite Hsel. cbn [mbind outcome_bind].
  rewrite Ht. cbn [mbind outcome_bind]. rewrite Hc. cbn [mbind outcome_bind].
  rewrite Hr. cbn [mbind outcome_bind]. rewrite Hh. reflexivity.
Qed.

Lemma roster_gap_is_fatal_witness :
  header_row {[ 1 := "Carol C"; 3 := "undervotes" ]} = Raise KeyError
  /\ gen_election_table 50 disk "gapped.txt" 1 (Some "auditor.csv")
     = (Raise KeyError, disk).
Proof.
  apply (roster_gap_is_fatal 50 disk "gapped.txt" 1 (Some "auditor.csv")
           [preamble; gapped_contest] gapped_contest
           {[ 1 := "Carol C"; 3 := "undervotes" ]} 2 3).
  - vm_compute. reflexivity.
  - vm_compute. reflexivity.
  - vm_compute. reflexivity.
  - eexists. vm_compute. reflexivity.
  - vm_compute. reflexivity.
  - eexists. vm_compute. reflexivity.
  - eexists. vm_compute. reflexivity.
  - lia.
  - vm_compute. reflexivity.
Defined.

(** C1, as stated, fails: [int] rejects the run of counts "50 40 0 1" of
    the second row as given and the name "Precinct One" of the first, so
    neither row parses and the export of the report raises. *)
Lemma round_trip_rows_as_given_fail :
  precinct_row "0001    Precinct One     100   90   1   0" = Raise ValueError
  /\ precinct_row "0002 0005 Precinct Two   50 40 0 1" = Raise ValueError
  /\ gen_election_table 50 disk "as_given.txt" 1 (Some "senate.csv")
     = (Raise ValueError, disk).
Proof. repeat split; vm_compute; reflexivity. Qed.

(** C1. With the two rows spelled so that one blank follows a lone
    identifier and two or more blanks precede every count, the export
    writes the title, the header and the two rows, the second of them
    being "0002", "0005", "Precinct Two", 50, 40, 0, 1; with the rows
    spelled as given the export raises [ValueError] and writes nothing. *)
Theorem round_trip_second_row :
  let table :=
    [[VStr "U.S. SENATE"];
     [VStr "Primary precinct ID"; VStr "Secondary precinct ID";
      VStr "Precinct name"; VStr "Alice A"; VStr "Bob B"; VStr "overvotes";
      VStr "undervotes"];
     [VStr "0001"; VNone; VStr "Precinct One";
      VInt 100; VInt 90; VInt 1; VInt 0];
     [VStr "0002"; VStr "0005"; VStr "Precinct Two";
      VInt 50; VInt 40; VInt 0; VInt 1]] in
  gen_election_table 50 disk "senate.txt" 1 (Some "senate.csv")
  = (Ret None, <["senate.csv" := Csv.writerows table]> disk)
  /\ grab_candidates senate_contest
     = Ret {[ 1 := "Alice A"; 2 := "Bob B"; 3 := "overvotes";
              4 := "undervotes" ]}
  /\ gen_election_table 50 disk "as_given.txt" 1 (Some "senate.csv")
     = (Raise ValueError, disk).
Proof. repeat split; vm_compute; reflexivity. Qed.

(** ** Two-line titles *)

Lemma app_cons c s t : String c s +:+ t = String c (s +:+ t).
Proof. reflexivity. Qed.

Lemma app_empty t : EmptyString +:+ t = t.
Proof. reflexivity. Qed.

Lemma lstrip_blank s : blank s = true -> Py.lstrip s = EmptyString.
Proof.
  induction s as [|c s IH]; cbn; [reflexivity|].
  intros [Hc Hs]%andb_prop. unfold Py.lstrip in *. cbn. rewrite Hc. auto.
Qed.

Lemma lstrip_not_blank s :
  blank s = false ->
  exists c r, Py.lstrip s = String c r /\ Py.isspace c = false.
Proof.
  induction s as [|c s IH]; cbn; [discriminate|].
  unfold Py.lstrip in *. cbn.
  destruct (Py.isspace c) eqn:Hc; cbn; [exact IH|]. intros _. eauto.
Qed.

Lemma rstrip_cons_nonspace c s :
  Py.isspace c = false -> exists r, Py.rstrip (String c s) = String c r.
Proof.
  intros Hc. unfold Py.rstrip. cbn. rewrite Hc.
  destruct (Py.rstrip_of Py.isspace s); eauto.
Qed.

Lemma rstrip_cons_cases c s :
  Py.rstrip (String c s) = EmptyString
  \/ exists r, Py.rstrip (String c s) = String c r.
Proof.
  unfold Py.rstrip. cbn.
  destruct (Py.rstrip_of Py.isspace s); [|eauto].
  destruct (Py.isspace c); eauto.
Qed.

Lemma rstrip_no_trailing s : ends_with_space (Py.rstrip s) = false.
Proof.
  unfold Py.rstrip. induction s as [|c s IH]; cbn; [reflexivity|].
  destruct (Py.rstrip_of Py.isspace s) as [|d r] eqn:Hr.
  - destruct (Py.isspace c) eqn:Hc; cbn; [reflexivity | exact Hc].
  - exact IH.
Qed.

Lemma ends_with_space_app a d b :
  ends_with_space (a +:+ String d b) = ends_with_space (String d b).
Proof.
  induction a as [|c a IH]; [reflexivity|].
  rewrite app_cons. cbn [ends_with_space].
  destruct (a +:+ String d b) eqn:Ha; [|exact IH].
  destruct a; discriminate.
Qed.

Lemma strip_no_leading s : starts_with_space (Py.rstrip (Py.lstrip s)) = false.
Proof.
  destruct (blank s) eqn:Hb.
  - now rewrite lstrip_blank.
  - destruct (lstrip_not_blank s Hb) as (c & r & -> & Hc).
    destruct (rstrip_cons_nonspace c r Hc) as [r' ->]. exact Hc.
Qed.

(** The title glued from two lines starts with white space exactly when
    the title line does or is blank, and ends with white space exactly
    when the second line is blank. *)
Lemma glued_title_ends title second :
  let joined :=
    Py.rstrip title +:+ " " +:+ Py.rstrip (Py.lstrip second) in
  starts_with_space joined = starts_with_space title || blank title
  /\ ends_with_space joined = blank second.
Proof.
  cbv zeta. split.
  - destruct title as [|c t]; [reflexivity|]. cbn [starts_with_space blank].
    destruct (Py.isspace c) eqn:Hc.
    + destruct (rstrip_cons_cases c t) as [-> | [r ->]]; [reflexivity|].
      rewrite app_cons. cbn. now rewrite Hc.
    + destruct (rstrip_cons_nonspace c t Hc) as [r ->].
      rewrite app_cons. cbn. now rewrite Hc.
  - destruct (blank second) eqn:Hb.
    + rewrite lstrip_blank by assumption.
      change (Py.rstrip EmptyString) with EmptyString.
      change (" " +:+ EmptyString) with (String " " EmptyString).
      rewrite ends_with_space_app. reflexivity.
    + destruct (lstrip_not_blank second Hb) as (c & r & Hl & Hc).
      pose proof (rstrip_no_trailing (Py.lstrip second)) as Hend.
      rewrite Hl in *.
      destruct (rstrip_cons_nonspace c r Hc) as [r' Hr]. rewrite Hr in *.
      change (" " +:+ String c r') with (String " " (String c r')).
      rewrite ends_with_space_app. exact Hend.
Qed.

Lemma title_body_glues contest t f (j : Z) marker title second :
  0 <= j ->
  contest !! Z.to_nat j = Some marker -> is_marker marker = true ->
  contest !! Z.to_nat (j + 1) = Some title ->
  contest !! Z.to_nat (j + 2) = Some second ->
  Py.contains "vote for not more" (Py.lower second) = false ->
  Title.body contest (Title.State t f j)
  = Ret (Title.State
           (Some (Py.rstrip title +:+ " " +:+ Py.rstrip (Py.lstrip second)))
           true j).
Proof.
  intros Hj Hmark Hm Htitle Hsecond Hno. unfold Title.body. cbn [Title.k].
  rewrite (getitem_nat contest j), Hmark by lia. cbn [mbind outcome_bind].
  unfold is_marker in Hm. rewrite Hm.
  rewrite (getitem_nat contest (j + 1)), Htitle by lia.
  cbn [mbind outcome_bind].
  rewrite (getitem_nat contest (j + 2)), Hsecond by lia.
  cbn [mbind outcome_bind]. now rewrite Hno.
Qed.

Lemma title_scan_glues (contest : list string) (m : nat) marker title second :
  (forall (i : nat) line,
      (i < m)%nat -> contest !! i = Some line -> is_marker line = false) ->
  contest !! m = Some marker -> is_marker marker = true ->
  Z.of_nat m < 10000 ->
  contest !! (m + 1)%nat = Some title ->
  contest !! (m + 2)%nat = Some second ->
  Py.contains "vote for not more" (Py.lower second) = false ->
  forall (fuel : nat) (j : nat),
    (j <= m)%nat -> (m - j < fuel)%nat ->
    while fuel Title.cond (Title.body contest)
      (Title.State None false (Z.of_nat j))
    = Ret (Title.State
             (Some (Py.rstrip title +:+ " " +:+ Py.rstrip (Py.lstrip second)))
             true (Z.of_nat m)).
Proof.
  intros Hbefore Hmark Hm Hceil Htitle Hsecond Hno fuel.
  induction fuel as [|fuel IH]; intros j Hj Hfuel; [lia|].
  rewrite while_step by (unfold Title.cond; cbn; apply Z.ltb_lt; lia).
  destruct (decide (j = m)) as [->|Hne].
  - rewrite (title_body_glues _ _ _ _ marker title second); try done; try lia.
    + cbn [mbind outcome_bind]. now apply while_stop.
    + now rewrite Nat2Z.id.
    + now replace (Z.to_nat (Z.of_nat m + 1)) with (m + 1)%nat by lia.
    + now replace (Z.to_nat (Z.of_nat m + 2)) with (m + 2)%nat by lia.
  - destruct (contest !! j) as [line|] eqn:Hline.
    2:{ apply lookup_ge_None in Hline. apply lookup_lt_Some in Hmark. lia. }
    rewrite (title_body_skip _ _ _ _ line); [|lia|now rewrite Nat2Z.id|].
    + cbn [mbind outcome_bind].
      replace (Z.of_nat j + 1) with (Z.of_nat (S j)) by lia.
      apply IH; lia.
    + eapply Hbefore; eauto. lia.
Qed.

(** C8. When the first marker line is followed by a title line and by a
    second line without "vote for not more", [grab_contest_title]
    returns the title line trimmed on the right, one blank, and the
    second line trimmed on both sides.  No white space surrounds that
    blank.  Leading white space of the title line is kept: the result
    starts with white space exactly when the title line does or is
    blank, and it ends with white space exactly when the second line is
    blank. *)
Theorem two_line_title (fuel : nat) (contest : string) (m : nat)
  (marker title second : string) :
  (forall (i : nat) line,
      (i < m)%nat -> Py.splitlines contest !! i = Some line ->
      is_marker line = false) ->
  Py.splitlines contest !! m = Some marker -> is_marker marker = true ->
  Z.of_nat m < 10000 ->
  Py.splitlines contest !! (m + 1)%nat = Some title ->
  Py.splitlines contest !! (m + 2)%nat = Some second ->
  Py.contains "vote for not more" (Py.lower second) = false ->
  (m < fuel)%nat ->
  let joined :=
    Py.rstrip title +:+ " " +:+ Py.rstrip (Py.lstrip second) in
  grab_contest_title fuel contest = Ret (Some joined)
  /\ ends_with_space (Py.rstrip title) = false
  /\ starts_with_space (Py.rstrip (Py.lstrip second)) = false
  /\ starts_with_space joined = starts_with_space title || blank title
  /\ ends_with_space joined = blank second.
Proof.
  intros Hbefore Hmark Hm Hceil Htitle Hsecond Hno Hfuel joined.
  split; [|split; [apply rstrip_no_trailing|split; [apply strip_no_leading|]]].
  - unfold grab_contest_title.
    change Title.init with (Title.State None false (Z.of_nat 0)).
    rewrite (title_scan_glues _ m marker title second); try done; lia.
  - apply glued_title_ends.
Qed.

Lemma two_line_title_witness :
  grab_contest_title 10
    (text_of_lines
       ["PRECINCT REPORT      VOTES  PERCENT"; "PROPOSED TAX LEVY (RENEWAL)  ";
        "  FRANKLIN TOWNSHIP"; "(Vote for not more than 1)"])
  = Ret (Some "PROPOSED TAX LEVY (RENEWAL) FRANKLIN TOWNSHIP").
Proof.
  apply (two_line_title 10 _ 0 "PRECINCT REPORT      VOTES  PERCENT"
           "PROPOSED TAX LEVY (RENEWAL)  " "  FRANKLIN TOWNSHIP").
  - intros i line Hi. lia.
  - vm_compute. reflexivity.
  - vm_compute. reflexivity.
  - lia.
  - vm_compute. reflexivity.
  - vm_compute. reflexivity.
  - vm_compute. reflexivity.
  - lia.
Defined.

(** C8, as stated, fails: the indentation of the title line stays in the
    title. *)
Lemma indented_title_keeps_indent :
  let contest :=
    text_of_lines
      ["PRECINCT REPORT      VOTES  PERCENT"; "   STATE ISSUE 1";
       "PROPOSED CONSTITUTIONAL AMENDMENT"; "(Vote for not more than 1)"] in
  grab_contest_title 10 contest
  = Ret (Some "   STATE ISSUE 1 PROPOSED CONSTITUTIONAL AMENDMENT")
  /\ starts_with_space "   STATE ISSUE 1 PROPOSED CONSTITUTIONAL AMENDMENT"
     = true.
Proof. split; vm_compute; reflexivity. Qed.

(** ** Segmentation *)

Lemma len_drop n s : Py.len (Py.drop n s) = (Py.len s - n)%nat.
Proof.
  revert s. induction n as [|n IH]; intros s; cbn; [lia|].
  destruct s; cbn; [reflexivity | apply IH].
Qed.

Lemma app_empty_r s : s +:+ EmptyString = s.
Proof. induction s as [|c s IH]; [reflexivity|]. now rewrite app_cons, IH. Qed.

Lemma app_assoc_str a b c : (a +:+ b) +:+ c = a +:+ (b +:+ c).
Proof. induction a as [|x a IH]; [reflexivity|]. now rewrite !app_cons, IH. Qed.

Local Abbreviation eq_run := (Re.span (Re.chr "=") None).

Lemma match_separator bol s :
  Re.match_here Pattern.separator bol s
  = if (eq_run s <? 2)%nat then None else Some (eq_run s).
Proof.
  unfold Pattern.separator. cbn [Re.match_here].
  destruct (eq_run s) as [|n] eqn:Hn; cbn [Re.backtrack]; [reflexivity|].
  destruct (S n <? 2)%nat; [reflexivity|].
  cbn [fmap option_fmap option_map]. now rewrite Nat.add_0_r.
Qed.

Lemma span_le_len cls hi s : (Re.span cls hi s <= Py.len s)%nat.
Proof.
  revert hi. induction s as [|c s IH]; intros hi.
  - destruct hi as [[|h]|]; cbn; lia.
  - destruct hi as [[|h]|]; cbn; [lia| |]; destruct (cls c); try lia.
    + specialize (IH (Some h)). cbn in IH. lia.
    + specialize (IH None). cbn in IH. lia.
Qed.

Lemma eq_run_cons c s :
  eq_run (String c s) = if Ascii.eqb "=" c then S (eq_run s) else 0%nat.
Proof. reflexivity. Qed.

Lemma runs_cons run c s :
  separator_runs_from run (String c s)
  = if Ascii.eqb "=" c then separator_runs_from (S run) s
    else ((if (2 <=? run)%nat then 1 else 0) + separator_runs_from 0 s)%nat.
Proof. reflexivity. Qed.

Lemma runs_after_span s run :
  separator_runs_from run s
  = ((if (2 <=? run + eq_run s)%nat then 1 else 0)
     + separator_runs_from 0 (Py.drop (eq_run s) s))%nat.
Proof.
  revert run. induction s as [|c s IH]; intros run.
  - cbn [separator_runs_from Re.span Py.drop]. now rewrite !Nat.add_0_r.
  - rewrite runs_cons, eq_run_cons. destruct (Ascii.eqb "=" c) eqn:Hc.
    + rewrite IH. cbn [Py.drop]. now rewrite Nat.add_succ_r.
    + cbn [Py.drop]. rewrite runs_cons, Hc. now rewrite !Nat.add_0_r.
Qed.

(** One step of the scan for separators: either a whole run of two or
    more is taken, or one character is passed over and the count of
    runs ahead stays the same. *)
Lemma separator_step s :
  (2 <= eq_run s)%nat
  /\ separator_runs s = S (separator_runs (Py.drop (eq_run s) s))
  \/ (eq_run s < 2)%nat
     /\ match s with
        | EmptyString => separator_runs s = 0%nat
        | String _ s' => separator_runs s = separator_runs s'
        end.
Proof.
  unfold separator_runs.
  destruct (le_lt_dec 2 (eq_run s)) as [Hge|Hlt]; [left|right]; split; auto.
  - rewrite runs_after_span. cbn [Nat.add].
    destruct (Nat.leb_spec 2 (eq_run s)); [reflexivity | lia].
  - destruct s as [|c s]; [reflexivity|].
    rewrite eq_run_cons in Hlt. rewrite runs_cons.
    destruct (Ascii.eqb "=" c); [|reflexivity].
    rewrite runs_after_span.
    assert (eq_run s = 0%nat) as -> by lia. reflexivity.
Qed.

Lemma finditer_separator_count fuel s bol gap :
  (Py.len s < fuel)%nat ->
  length (Re.finditer fuel Pattern.separator bol gap s).1 = separator_runs s.
Proof.
  revert s bol gap. induction fuel as [|fuel IH]; intros s bol gap Hlen; [lia|].
  cbn [Re.finditer]. rewrite match_separator.
  destruct (separator_step s) as [[Hge Hruns] | [Hlt Hruns]].
  - destruct (Nat.ltb_spec (eq_run s) 2); [lia|].
    destruct (eq_run s) as [|n] eqn:Hn; [lia|].
    specialize (IH (Py.drop (S n) s) false EmptyString).
    pose proof (span_le_len (Re.chr "=") None s) as Hle.
    destruct (Re.finditer fuel _ _ _ _) as [ms tl]. cbn [fst length] in *.
    rewrite Hruns, IH; [reflexivity|]. rewrite len_drop. lia.
  - destruct (Nat.ltb_spec (eq_run s) 2); [|lia].
    destruct s as [|c s]; [now rewrite Hruns|].
    rewrite Hruns. apply IH. cbn in Hlen. lia.
Qed.

Lemma finditer_separator_none fuel s bol gap :
  (Py.len s < fuel)%nat -> separator_runs s = 0%nat ->
  Re.finditer fuel Pattern.separator bol gap s = ([], gap +:+ s).
Proof.
  revert s bol gap. induction fuel as [|fuel IH]; intros s bol gap Hlen H0;
    [lia|].
  cbn [Re.finditer]. rewrite match_separator.
  destruct (separator_step s) as [[Hge Hruns] | [Hlt Hruns]]; [lia|].
  destruct (Nat.ltb_spec (eq_run s) 2); [|lia].
  destruct s as [|c s]; [now rewrite app_empty_r|].
  rewrite IH; [|cbn in Hlen; lia|lia].
  now rewrite app_assoc_str.
Qed.

Lemma split_separator_length s :
  length (Re.split Pattern.separator s) = S (separator_runs s).
Proof.
  unfold Re.split, Re.matches.
  pose proof (finditer_separator_count (S (Py.len s)) s true EmptyString) as H.
  destruct (Re.finditer _ _ _ _ _) as [ms tl]. cbn [fst] in H.
  rewrite length_app, length_fmap, H by lia. cbn. lia.
Qed.

Lemma split_separator_none s :
  separator_runs s = 0%nat -> Re.split Pattern.separator s = [s].
Proof.
  intros H0. unfold Re.split, Re.matches.
  rewrite finditer_separator_none by (auto; lia). reflexivity.
Qed.

(** C4. The split at the runs of two or more "=" yields one block more
    than there are such runs, and [read_canvass_from_text] returns these
    blocks less the last one when that is empty.  A text without such a
    run is the only block of the split: returned as a one-block
    sequence when it is not empty, and as the empty sequence when it
    is. *)
Theorem read_canvass_blocks (fs : gmap string string) (import_filepath : string)
  (text : string) :
  fs !! import_filepath = Some text ->
  let canvass := universal_newlines text in
  let blocks := Re.split Pattern.separator canvass in
  length blocks = S (separator_runs canvass)
  /\ read_canvass_from_text fs import_filepath
     = Ret (if decide (last blocks = Some EmptyString)
            then removelast blocks else blocks)
  /\ (separator_runs canvass = 0%nat ->
      blocks = [canvass]
      /\ read_canvass_from_text fs import_filepath
         = Ret (if decide (canvass = EmptyString) then [] else [canvass])).
Proof.
  intros Hfile canvass blocks.
  assert (Hread : read_canvass_from_text fs import_filepath
                  = Ret (if decide (last blocks = Some EmptyString)
                         then removelast blocks else blocks)).
  { unfold read_canvass_from_text. rewrite Hfile. fold canvass. fold blocks.
    destruct (split_snoc Pattern.separator canvass) as (l & x & Hb).
    fold blocks in Hb. rewrite Hb, getitem_last. cbn [mbind outcome_bind].
    rewrite last_snoc.
    destruct (decide (x = EmptyString)) as [->|Hx].
    - rewrite decide_True by reflexivity. reflexivity.
    - rewrite decide_False by congruence. reflexivity. }
  split; [apply split_separator_length|]. split; [exact Hread|].
  intros H0. pose proof (split_separator_none canvass H0) as Hb.
  fold blocks in Hb. split; [exact Hb|]. rewrite Hread, Hb. cbn [last].
  destruct (decide (canvass = EmptyString)) as [->|Hc].
  - rewrite decide_True by reflexivity. reflexivity.
  - rewrite decide_False by congruence. reflexivity.
Qed.

Lemma read_canvass_blocks_witness :
  length (Re.split Pattern.separator (universal_newlines senate_report))
  = S (separator_runs (universal_newlines senate_report))
  /\ read_canvass_from_text disk "senate.txt" = Ret [preamble; senate_contest].
Proof.
  destruct (read_canvass_blocks disk "senate.txt" senate_report)
    as (Hlen & Hread & _).
  - vm_compute. reflexivity.
  - split; [exact Hlen|]. rewrite Hread. vm_compute. reflexivity.
Defined.

(** C4, as stated, fails: the empty report yields no block at all, and a
    report that ends in its only separator run yields one block. *)
Lemma empty_report_has_no_block :
  read_canvass_from_text {[ "empty.txt" := EmptyString ]} "empty.txt" = Ret []
  /\ separator_runs "PREAMBLE====" = 1%nat
  /\ read_canvass_from_text {[ "short.txt" := "PREAMBLE====" ]} "short.txt"
     = Ret ["PREAMBLE"].
Proof. repeat split; vm_compute; reflexivity. Qed.

(** ** The directory of contests *)

Lemma len_app a b : Py.len (a +:+ b) = (Py.len a + Py.len b)%nat.
Proof. induction a as [|c a IH]; [reflexivity|]. rewrite app_cons. cbn. lia. Qed.

Lemma pos_digits_len fuel n acc :
  (Py.len acc < Py.len (Py.pos_digits (S fuel) n acc))%nat.
Proof.
  revert n acc. induction fuel as [|fuel IH]; intros n acc.
  - cbn. destruct (n <? 10); cbn; lia.
  - cbn [Py.pos_digits]. destruct (n <? 10); [cbn; lia|].
    specialize (IH (n / 10) (String (Py.digit_char (n mod 10)) acc)).
    cbn [Py.len] in IH. cbn [Py.pos_digits] in IH. lia.
Qed.

Lemma str_len n : (0 < Py.len (Py.str n))%nat.
Proof.
  unfold Py.str. destruct (n <? 0); [cbn; lia|].
  pose proof (pos_digits_len (Z.to_nat (Z.log2 n)) n EmptyString). lia.
Qed.

Lemma app_longer a b : (0 < Py.len b)%nat -> a <> a +:+ b.
Proof. intros Hb Heq. apply (f_equal Py.len) in Heq. rewrite len_app in Heq. lia. Qed.

Lemma for_each_snoc {A S} (f : S -> A -> outcome S) l x acc :
  for_each f (l ++ [x]) acc = (acc' ← for_each f l acc; f acc' x).
Proof.
  revert acc. induction l as [|y l IH]; intros acc; cbn.
  - destruct (f acc x); reflexivity.
  - destruct (f acc y); cbn [mbind outcome_bind]; auto.
Qed.

(** One pass of the loop, once the title of the contest is known. *)
Lemma add_title_at (fuel : nat) (contests : list string)
  (title : Z -> option string)
  (titles : forall k, 1 <= k < Z.of_nat (length contests) ->
     exists contest,
       Py.getitem contests k = Ret contest
       /\ grab_contest_title fuel contest = Ret (title k))
  d p :
  1 <= p < Z.of_nat (length contests) ->
  add_title fuel contests d p =
    match d !! title p with
    | None => Ret (<[title p := p]> d)
    | Some _ =>
        match title p with
        | Some t => Ret (<[Some (t +:+ Py.str p) := p]> d)
        | None => Raise TypeError
        end
    end.
Proof.
  intros Hp. destruct (titles p Hp) as (contest & Hsel & Ht).
  unfold add_title. rewrite Hsel. cbn [mbind outcome_bind].
  rewrite Ht. reflexivity.
Qed.

Section Directory.

Variables (fuel : nat) (contests : list string).
Variables (title : Z -> option string) (i j : Z) (T : string).

Hypothesis titles :
  forall k, 1 <= k < Z.of_nat (length contests) ->
    exists contest,
      Py.getitem contests k = Ret contest
      /\ grab_contest_title fuel contest = Ret (title k).
Hypothesis one_untitled :
  forall k k', 1 <= k -> k < k' -> k' < Z.of_nat (length contests) ->
    title k = None -> title k' <> None.
Hypothesis first_at : 1 <= i < j.
Hypothesis second_at : j < Z.of_nat (length contests).
Hypothesis title_first : title i = Some T.
Hypothesis title_second : title j = Some T.
Hypothesis free_at_first : taken_before fuel contests i (Some T) = false.
Hypothesis first_stays :
  forall k, i < k < Z.of_nat (length contests) -> k <> j ->
    rekeyed_to fuel contests k T = false.
Hypothesis second_stays :
  forall k, j < k < Z.of_nat (length contests) ->
    rekeyed_to fuel contests k (T +:+ Py.str j) = false.

Lemma taken_before_at d p key :
  directory_before fuel contests p = Ret d ->
  is_Some (d !! key) ->
  taken_before fuel contests p key = true.
Proof.
  intros Hd Hkey. unfold taken_before. rewrite Hd.
  now apply bool_decide_eq_true.
Qed.

Lemma rekeyed_to_at d p t :
  1 <= p < Z.of_nat (length contests) ->
  directory_before fuel contests p = Ret d ->
  title p = Some t ->
  is_Some (d !! Some t) ->
  rekeyed_to fuel contests p (t +:+ Py.str p) = true.
Proof.
  intros Hp Hd Ht Hkey. destruct (titles p Hp) as (contest & Hsel & Hgrab).
  unfold rekeyed_to. rewrite Hsel, Hgrab, Ht.
  rewrite (taken_before_at d) by assumption.
  now rewrite bool_decide_eq_true_2.
Qed.

Lemma directory_step d m :
  0 <= m -> m + 1 < Z.of_nat (length contests) ->
  directory_before fuel contests (m + 1) = Ret d ->
  directory_inv title i j T m d ->
  exists d',
    add_title fuel contests d (m + 1) = Ret d'
    /\ directory_inv title i j T (m + 1) d'.
Proof.
  intros Hm Hp Hbefore (Hnone & Hi & Hj).
  rewrite (add_title_at fuel contests title titles) by lia.
  destruct (d !! title (m + 1)) as [v|] eqn:Hlook.
  - (* the title is a key already *)
    destruct (title (m + 1)) as [t|] eqn:Ht.
    + assert (rekeyed_to fuel contests (m + 1) (t +:+ Py.str (m + 1)) = true)
        as Hre by (apply (rekeyed_to_at d); [lia | done | done | by eexists]).
      eexists. split; [reflexivity|].
      destruct (decide (m + 1 = i)) as [Hpi|Hpi].
      { (* the key [T] is free when [i] comes *)
        exfalso. rewrite Hpi, title_first in Ht. injection Ht as <-.
        rewrite <- Hpi in free_at_first.
        rewrite (taken_before_at d (m + 1) (Some T)) in free_at_first;
          [discriminate | done | by eexists]. }
      destruct (decide (m + 1 = j)) as [Hpj|Hpj].
      { (* the second contest titled [T] comes in *)
        rewrite Hpj in *. rewrite title_second in Ht. injection Ht as <-.
        pose proof (str_len j) as Hlen.
        split; [|split].
        - rewrite lookup_insert_ne by discriminate. intros Hsome.
          destruct (Hnone Hsome) as (k & Hk & Hkn). exists k. split; [lia|done].
        - intros _. rewrite lookup_insert_ne; [apply Hi; lia|].
          intros [= Habs]. symmetry in Habs. now apply app_longer in Habs.
        - intros _. apply lookup_insert_eq. }
      split; [|split].
      * rewrite lookup_insert_ne by discriminate. intros Hsome.
        destruct (Hnone Hsome) as (k & Hk & Hkn). exists k. split; [lia|done].
      * intros Him. rewrite lookup_insert_ne; [apply Hi; lia|].
        intros [= Habs].
        rewrite Habs, first_stays in Hre; [discriminate | lia | done].
      * intros Hjm. rewrite lookup_insert_ne; [apply Hj; lia|].
        intros [= Habs].
        rewrite Habs, second_stays in Hre; [discriminate | lia].
    + (* a second contest without title *)
      exfalso. destruct Hnone as (k & Hk & Hkn); [by eexists|].
      now apply (one_untitled k (m + 1)); [lia..| |].
  - eexists. split; [reflexivity|]. split; [|split].
    + intros Hsome. destruct (title (m + 1)) as [t|] eqn:Ht.
      * rewrite lookup_insert_ne in Hsome by discriminate.
        destruct (Hnone Hsome) as (k & Hk & Hkn). exists k. split; [lia|done].
      * exists (m + 1). split; [lia|done].
    + intros Him. destruct (decide (i = m + 1)) as [Heq|Hne].
      * rewrite <- Heq, title_first. rewrite lookup_insert_eq. now rewrite Heq.
      * rewrite lookup_insert_ne; [apply Hi; lia|].
        intros Habs. rewrite Habs, Hi in Hlook by lia. discriminate.
    + intros Hjm. destruct (decide (j = m + 1)) as [Heq|Hne].
      * exfalso. rewrite <- Heq, title_second, Hi in Hlook by lia. discriminate.
      * rewrite lookup_insert_ne; [apply Hj; lia|].
        intros Habs. rewrite Habs, Hj in Hlook by lia. discriminate.
Qed.

Lemma directory_loop (m : nat) :
  Z.of_nat m < Z.of_nat (length contests) ->
  exists d,
    for_each (add_title fuel contests) (seqZ 1 (Z.of_nat m)) ∅ = Ret d
    /\ directory_inv title i j T (Z.of_nat m) d.
Proof.
  induction m as [|m IH]; intros Hm.
  - exists ∅. split; [reflexivity|]. split; [|split]; try (intros; lia).
    rewrite lookup_empty. intros [v Hv]. discriminate.
  - destruct IH as (d & Hd & Hinv); [lia|].
    destruct (directory_step d (Z.of_nat m)) as (d' & Hstep & Hinv');
      [lia | lia | | exact Hinv |].
    { unfold directory_before.
      now replace (Z.of_nat m + 1 - 1) with (Z.of_nat m) by lia. }
    exists d'. rewrite seqZ_S, for_each_snoc, Hd. cbn [mbind outcome_bind].
    replace (1 + Z.of_nat m) with (Z.of_nat m + 1) by lia.
    split; [exact Hstep|].
    now replace (Z.of_nat (S m)) with (Z.of_nat m + 1) by lia.
Qed.

End Directory.

(** C9. When every contest from position 1 on yields a title, at most
    one of them no title at all, and the contests at positions [i < j]
    are titled [T], where [T] is no key yet when the loop reaches [i],
    no contest after [i] other than [j] goes in under the key [T], and
    no contest after [j] goes in under [T] followed by the decimal
    digits of [j]: [display_contests] maps [T] to [i] and [T] followed
    by the decimal digits of [j] to [j]. *)
Theorem display_contests_duplicate_title (fuel : nat)
  (fs : gmap string string) (import_filepath : string)
  (contests : list string) (title : Z -> option string) (i j : Z)
  (T : string) :
  read_canvass_from_text fs import_filepath = Ret contests ->
  (forall k, 1 <= k < Z.of_nat (length contests) ->
     exists contest,
       Py.getitem contests k = Ret contest
       /\ grab_contest_title fuel contest = Ret (title k)) ->
  (forall k k', 1 <= k -> k < k' -> k' < Z.of_nat (length contests) ->
     title k = None -> title k' <> None) ->
  1 <= i < j -> j < Z.of_nat (length contests) ->
  title i = Some T -> title j = Some T ->
  taken_before fuel contests i (Some T) = false ->
  (forall k, i < k < Z.of_nat (length contests) -> k <> j ->
     rekeyed_to fuel contests k T = false) ->
  (forall k, j < k < Z.of_nat (length contests) ->
     rekeyed_to fuel contests k (T +:+ Py.str j) = false) ->
  exists d,
    display_contests fuel fs import_filepath = Ret d
    /\ d !! Some T = Some i
    /\ d !! Some (T +:+ Py.str j) = Some j.
Proof.
  intros Hread Htitles Hnone Hij Hj Hti Htj Hfree Hfirst Hsecond.
  edestruct (directory_loop fuel contests title i j T)
    with (m := (length contests - 1)%nat) as (d & Hd & _ & Hi & Hjj);
    [eassumption.. | lia |].
  exists d. unfold display_contests. rewrite Hread. cbn [mbind outcome_bind].
  replace (Z.of_nat (length contests) - 1)
    with (Z.of_nat (length contests - 1)) by lia.
  split; [exact Hd|]. split; [apply Hi | apply Hjj]; lia.
Qed.

Lemma display_contests_duplicate_title_witness :
  (exists d,
      display_contests 20 {[ "paired.txt" := paired_report ]} "paired.txt"
      = Ret d
      /\ d !! Some "COUNTY COMMISSIONER" = Some 1
      /\ d !! Some ("COUNTY COMMISSIONER" +:+ Py.str 2) = Some 2)
  /\ (exists d,
      display_contests 20 {[ "paired.txt" := paired_report ]} "paired.txt"
      = Ret d
      /\ d !! Some "STATE ISSUE 1" = Some 3
      /\ d !! Some ("STATE ISSUE 1" +:+ Py.str 4) = Some 4).
Proof.
  split.
  - apply (display_contests_duplicate_title 20
             {[ "paired.txt" := paired_report ]} "paired.txt"
             [preamble; titled_contest "COUNTY COMMISSIONER";
              titled_contest "COUNTY COMMISSIONER";
              titled_contest "STATE ISSUE 1";
              titled_contest "STATE ISSUE 1"]
             (fun k => if decide (k <= 2) then Some "COUNTY COMMISSIONER"
                       else Some "STATE ISSUE 1")
             1 2 "COUNTY COMMISSIONER").
    + vm_compute. reflexivity.
    + intros k Hk. cbn [length] in Hk.
      assert (k = 1 \/ k = 2 \/ k = 3 \/ k = 4) as [-> | [-> | [-> | ->]]]
        by lia;
        (eexists; split; [vm_compute; reflexivity|]; vm_compute; reflexivity).
    + intros k k' _ _ _ Hk. destruct (decide (k <= 2)); discriminate Hk.
    + lia.
    + cbn [length]. lia.
    + reflexivity.
    + reflexivity.
    + vm_compute. reflexivity.
    + intros k Hk Hne. cbn [length] in Hk.
      assert (k = 3 \/ k = 4) as [-> | ->] by lia; vm_compute; reflexivity.
    + intros k Hk. cbn [length] in Hk.
      assert (k = 3 \/ k = 4) as [-> | ->] by lia; vm_compute; reflexivity.
  - apply (display_contests_duplicate_title 20
             {[ "paired.txt" := paired_report ]} "paired.txt"
             [preamble; titled_contest "COUNTY COMMISSIONER";
              titled_contest "COUNTY COMMISSIONER";
              titled_contest "STATE ISSUE 1";
              titled_contest "STATE ISSUE 1"]
             (fun k => if decide (k <= 2) then Some "COUNTY COMMISSIONER"
                       else Some "STATE ISSUE 1")
             3 4 "STATE ISSUE 1").
    + vm_compute. reflexivity.
    + intros k Hk. cbn [length] in Hk.
      assert (k = 1 \/ k = 2 \/ k = 3 \/ k = 4) as [-> | [-> | [-> | ->]]]
        by lia;
        (eexists; split; [vm_compute; reflexivity|]; vm_compute; reflexivity).
    + intros k k' _ _ _ Hk. destruct (decide (k <= 2)); discriminate Hk.
    + lia.
    + cbn [length]. lia.
    + reflexivity.
    + reflexivity.
    + vm_compute. reflexivity.
    + intros k Hk Hne. cbn [length] in Hk. lia.
    + intros k Hk. cbn [length] in Hk. lia.
Defined.

(** C9, as stated, fails.  Of three contests under one title the second
    and the third share it, yet the title stands for the first.  And a
    title can be taken before its first contest comes: "TAX LEVY2" is
    the key made for the second "TAX LEVY", so the contests 3 and 4,
    the only two titled "TAX LEVY2", leave that key at 2. *)
Lemma shared_title_not_at_earlier_of_two :
  (exists contest,
      read_canvass_from_text disk "triple.txt"
      = Ret [preamble; contest; contest; contest]
      /\ grab_contest_title 20 contest = Ret (Some "COUNTY COMMISSIONER"))
  /\ display_contests 20 disk "triple.txt"
     = Ret {[ Some "COUNTY COMMISSIONER" := 1;
              Some "COUNTY COMMISSIONER2" := 2;
              Some "COUNTY COMMISSIONER3" := 3 ]}
  /\ (exists first second,
         read_canvass_from_text disk "levy.txt"
         = Ret [preamble; first; first; second; second]
         /\ grab_contest_title 20 first = Ret (Some "TAX LEVY")
         /\ grab_contest_title 20 second = Ret (Some "TAX LEVY2"))
  /\ display_contests 20 disk "levy.txt"
     = Ret {[ Some "TAX LEVY" := 1; Some "TAX LEVY2" := 2;
              Some "TAX LEVY23" := 3; Some "TAX LEVY24" := 4 ]}.
Proof.
  split; [|split; [|split]].
  - exists (titled_contest "COUNTY COMMISSIONER").
    split; vm_compute; reflexivity.
  - vm_compute. reflexivity.
  - exists (titled_contest "TAX LEVY"), (titled_contest "TAX LEVY2").
    split; [|split]; vm_compute; reflexivity.
  - vm_compute. reflexivity.
Qed.

(** The provisos on the contests that come later are needed as well.  A
    contest after [i] that goes in under [T] takes the key from [i]:
    the third contest, a second "WARD", is stored as "WARD3", the title
    of the first and the fourth.  And a contest after [j] that goes in
    under [T] followed by [j] takes the key from [j]: the twelfth
    contest, a second "A", is stored as "A12", the key made for the
    second "A1". *)
Lemma later_contest_takes_key :
  display_contests 20
    {[ "ward.txt" := report_of_titles ["WARD3"; "WARD"; "WARD"; "WARD3"] ]}
    "ward.txt"
  = Ret {[ Some "WARD3" := 3; Some "WARD" := 2; Some "WARD34" := 4 ]}
  /\ exists d,
       display_contests 20
         {[ "a.txt" := report_of_titles
                         ["A1"; "A1"; "A"; "B"; "C"; "D"; "E"; "F"; "G";
                          "H"; "I"; "A"] ]}
         "a.txt"
       = Ret d
       /\ d !! Some "A1" = Some 1
       /\ d !! Some ("A1" +:+ Py.str 2) = Some 12.
Proof.
  split; [vm_compute; reflexivity|].
  eexists. split; [vm_compute; reflexivity|].
  split; vm_compute; reflexivity.
Qed.

(** * Further properties *)

(** ** Loops in general *)

(** A loop that returns has kept every invariant of its body and has
    left its condition false. *)
Lemma while_invariant {S} (I : S -> Prop) (cond : S -> bool)
  (body : S -> outcome S) :
  (forall st st', I st -> cond st = true -> body st = Ret st' -> I st') ->
  forall fuel st st',
    I st -> while fuel cond body st = Ret st' -> I st' /\ cond st' = false.
Proof.
  intros Hstep fuel. induction fuel as [|fuel IH]; intros st st' Hst Hrun.
  - cbn in Hrun. destruct (cond st) eqn:Hc; [discriminate|].
    injection Hrun as <-. auto.
  - destruct (cond st) eqn:Hc.
    + rewrite while_step in Hrun by assumption.
      destruct (body st) as [st1| |] eqn:Hb; cbn [mbind outcome_bind] in Hrun;
        try discriminate.
      eapply IH; [|exact Hrun]. eauto.
    + rewrite while_stop in Hrun by assumption. injection Hrun as <-. auto.
Qed.

(** A loop raises only what its body raises. *)
Lemma while_raises {S} (P : exn -> Prop) (cond : S -> bool)
  (body : S -> outcome S) :
  (forall st e, body st = Raise e -> P e) ->
  forall fuel st e, while fuel cond body st = Raise e -> P e.
Proof.
  intros Hbody fuel. induction fuel as [|fuel IH]; intros st e Hrun.
  - cbn in Hrun. destruct (cond st); discriminate.
  - destruct (cond st) eqn:Hc.
    + rewrite while_step in Hrun by assumption.
      destruct (body st) as [st1| |] eqn:Hb; cbn [mbind outcome_bind] in Hrun;
        try discriminate.
      * eapply IH, Hrun.
      * injection Hrun as <-. eapply Hbody, Hb.
    + rewrite while_stop in Hrun by assumption. discriminate.
Qed.

(** ** More on the title scan *)

Lemma title_body_raises contest st e :
  Title.body contest st = Raise e -> e = IndexError.
Proof.
  unfold Title.body, Py.getitem.
  repeat match goal with
         | |- context [if ?b then _ else _] => destruct b
         | |- context [match ?l !! ?i with _ => _ end] => destruct (l !! i)
         | _ => progress cbn [mbind outcome_bind]
         end; congruence.
Qed.

(** The scan walks to the first marker line and stops with whatever the
    body makes of it. *)
Lemma title_scan_reaches (contest : list string) (m : nat) st' :
  (forall (i : nat) line,
      (i < m)%nat -> contest !! i = Some line -> is_marker line = false) ->
  (m <= length contest)%nat ->
  Z.of_nat m < 10000 ->
  Title.body contest (Title.State None false (Z.of_nat m)) = Ret st' ->
  Title.found_title st' = true ->
  forall (fuel : nat) (j : nat),
    (j <= m)%nat -> (m - j < fuel)%nat ->
    while fuel Title.cond (Title.body contest)
      (Title.State None false (Z.of_nat j)) = Ret st'.
Proof.
  intros Hbefore Hlen Hceil Hbody Hfound fuel.
  induction fuel as [|fuel IH]; intros j Hj Hfuel; [lia|].
  rewrite while_step by (unfold Title.cond; cbn; apply Z.ltb_lt; lia).
  destruct (decide (j = m)) as [->|Hne].
  - rewrite Hbody. cbn [mbind outcome_bind]. apply while_stop.
    unfold Title.cond. now rewrite Hfound.
  - destruct (contest !! j) as [line|] eqn:Hline.
    2:{ apply lookup_ge_None in Hline. lia. }
    rewrite (title_body_skip _ _ _ _ line); [|lia|now rewrite Nat2Z.id|].
    + cbn [mbind outcome_bind].
      replace (Z.of_nat j + 1) with (Z.of_nat (S j)) by lia.
      apply IH; lia.
    + eapply Hbefore; eauto. lia.
Qed.

Lemma title_body_one_line contest t f (j : Z) marker title second :
  0 <= j ->
  contest !! Z.to_nat j = Some marker -> is_marker marker = true ->
  contest !! Z.to_nat (j + 1) = Some title ->
  contest !! Z.to_nat (j + 2) = Some second ->
  Py.contains "vote for not more" (Py.lower second) = true ->
  Title.body contest (Title.State t f j)
  = Ret (Title.State (Some (Py.rstrip title)) true j).
Proof.
  intros Hj Hmark Hm Htitle Hsecond Hyes. unfold Title.body. cbn [Title.k].
  rewrite (getitem_nat contest j), Hmark by lia. cbn [mbind outcome_bind].
  unfold is_marker in Hm. rewrite Hm.
  rewrite (getitem_nat contest (j + 1)), Htitle by lia.
  cbn [mbind outcome_bind].
  rewrite (getitem_nat contest (j + 2)), Hsecond by lia.
  cbn [mbind outcome_bind]. now rewrite Hyes.
Qed.

(** X1. When the line two below the first marker line carries "vote for
    not more", the title is the line below the marker trimmed on the
    right, and only that line; it does not end in white space. *)
Theorem one_line_title (fuel : nat) (contest : string) (m : nat)
  (marker title second : string) :
  (forall (i : nat) line,
      (i < m)%nat -> Py.splitlines contest !! i = Some line ->
      is_marker line = false) ->
  Py.splitlines contest !! m = Some marker -> is_marker marker = true ->
  Z.of_nat m < 10000 ->
  Py.splitlines contest !! (m + 1)%nat = Some title ->
  Py.splitlines contest !! (m + 2)%nat = Some second ->
  Py.contains "vote for not more" (Py.lower second) = true ->
  (m < fuel)%nat ->
  grab_contest_title fuel contest = Ret (Some (Py.rstrip title))
  /\ ends_with_space (Py.rstrip title) = false.
Proof.
  intros Hbefore Hmark Hm Hceil Htitle Hsecond Hyes Hfuel.
  split; [|apply rstrip_no_trailing].
  unfold grab_contest_title.
  change Title.init with (Title.State None false (Z.of_nat 0)).
  rewrite (title_scan_reaches _ m
             (Title.State (Some (Py.rstrip title)) true (Z.of_nat m)));
    try done; try lia.
  - apply lookup_lt_Some in Hmark. lia.
  - apply (title_body_one_line _ _ _ _ marker title second); try done; try lia.
    + now rewrite Nat2Z.id.
    + now replace (Z.to_nat (Z.of_nat m + 1)) with (m + 1)%nat by lia.
    + now replace (Z.to_nat (Z.of_nat m + 2)) with (m + 2)%nat by lia.
Qed.

Lemma one_line_title_witness :
  grab_contest_title 10 senate_contest = Ret (Some "U.S. SENATE")
  /\ ends_with_space "U.S. SENATE" = false.
Proof.
  apply (one_line_title 10 senate_contest 1
           "PRECINCT REPORT                 VOTES  PERCENT"
           "U.S. SENATE" "(Vote for not more than 1)").
  - intros i line Hi Hline. assert (i = 0%nat) as -> by lia.
    vm_compute in Hline. injection Hline as <-. vm_compute. reflexivity.
  - vm_compute. reflexivity.
  - vm_compute. reflexivity.
  - lia.
  - vm_compute. reflexivity.
  - vm_compute. reflexivity.
  - vm_compute. reflexivity.
  - lia.
Defined.

(** X2. The title scan always comes to an end within its ceiling: with a
    budget above ten thousand passes [grab_contest_title] returns, or
    raises [IndexError] and nothing else. *)
Theorem title_scan_ends (fuel : nat) (contest : string) :
  10000 < Z.of_nat fuel ->
  returns (grab_contest_title fuel contest)
  \/ grab_contest_title fuel contest = Raise IndexError.
Proof.
  intros Hfuel. pose proof (grab_contest_title_total fuel contest Hfuel) as Ht.
  unfold grab_contest_title in *.
  destruct (while fuel Title.cond (Title.body (Py.splitlines contest))
              Title.init) as [st|e|] eqn:Hrun; cbn [mbind outcome_bind] in *.
  - left. now eexists.
  - right. f_equal.
    eapply (while_raises (fun e => e = IndexError)); [|exact Hrun].
    intros st e'. apply title_body_raises.
  - done.
Qed.

Lemma title_scan_ends_witness :
  returns (grab_contest_title (Z.to_nat 10001) senate_contest)
  \/ grab_contest_title (Z.to_nat 10001) senate_contest = Raise IndexError.
Proof. apply title_scan_ends. vm_compute. reflexivity. Defined.

Lemma title_scan_reaches_raise (contest : list string) (m : nat) e :
  (forall (i : nat) line,
      (i < m)%nat -> contest !! i = Some line -> is_marker line = false) ->
  (m <= length contest)%nat ->
  Z.of_nat m < 10000 ->
  Title.body contest (Title.State None false (Z.of_nat m)) = Raise e ->
  forall (fuel : nat) (j : nat),
    (j <= m)%nat -> (m - j < fuel)%nat ->
    while fuel Title.cond (Title.body contest)
      (Title.State None false (Z.of_nat j)) = Raise e.
Proof.
  intros Hbefore Hlen Hceil Hbody fuel.
  induction fuel as [|fuel IH]; intros j Hj Hfuel; [lia|].
  rewrite while_step by (unfold Title.cond; cbn; apply Z.ltb_lt; lia).
  destruct (decide (j = m)) as [->|Hne].
  - rewrite Hbody. reflexivity.
  - destruct (contest !! j) as [line|] eqn:Hline.
    2:{ apply lookup_ge_None in Hline. lia. }
    rewrite (title_body_skip _ _ _ _ line); [|lia|now rewrite Nat2Z.id|].
    + cbn [mbind outcome_bind].
      replace (Z.of_nat j + 1) with (Z.of_nat (S j)) by lia.
      apply IH; lia.
    + eapply Hbefore; eauto. lia.
Qed.

Lemma title_body_short contest t f (j : Z) marker :
  0 <= j ->
  contest !! Z.to_nat j = Some marker -> is_marker marker = true ->
  contest !! Z.to_nat (j + 1) = None \/ contest !! Z.to_nat (j + 2) = None ->
  Title.body contest (Title.State t f j) = Raise IndexError.
Proof.
  intros Hj Hmark Hm Hshort. unfold Title.body. cbn [Title.k].
  rewrite (getitem_nat contest j), Hmark by lia. cbn [mbind outcome_bind].
  unfold is_marker in Hm. rewrite Hm.
  rewrite (getitem_nat contest (j + 1)) by lia.
  destruct (contest !! Z.to_nat (j + 1)) as [title|] eqn:Ht; [|reflexivity].
  cbn [mbind outcome_bind].
  rewrite (getitem_nat contest (j + 2)) by lia.
  destruct Hshort as [Hs|Hs]; [discriminate|]. now rewrite Hs.
Qed.

Lemma not_true_false b : b <> true -> b = false.
Proof. now destruct b. Qed.

(** X3. With a budget above its ceiling [grab_contest_title] is decided
    by the first marker line among the first ten thousand lines: the
    title is read off the two lines below it, and [IndexError] is raised
    when one of them is missing; without such a marker line the title
    is absent when the block has ten thousand lines or more, and
    [IndexError] is raised otherwise.  A marker further down is never
    looked at. *)
Theorem grab_contest_title_closed_form (fuel : nat) (contest : string) :
  10000 < Z.of_nat fuel ->
  grab_contest_title fuel contest = title_of_lines (Py.splitlines contest).
Proof.
  intros Hfuel. unfold grab_contest_title, title_of_lines.
  set (lines := Py.splitlines contest).
  change Title.init with (Title.State None false (Z.of_nat 0)).
  destruct (list_find _ (take (Z.to_nat 10000) lines)) as [[m marker]|] eqn:Hfind.
  - apply list_find_Some in Hfind as (Hm & Hmark & Hfirst).
    apply lookup_take_Some in Hm as [Hm Hceil].
    assert (Hbefore : forall (i : nat) line,
               (i < m)%nat -> lines !! i = Some line -> is_marker line = false).
    { intros i line Hi Hline. apply not_true_false. eapply (Hfirst i); [|lia].
      rewrite lookup_take_lt by lia. exact Hline. }
    pose proof (lookup_lt_Some _ _ _ Hm) as Hlen.
    destruct (lines !! (m + 1)%nat) as [title|] eqn:Ht.
    + destruct (lines !! (m + 2)%nat) as [second|] eqn:Hs.
      * destruct (Py.contains "vote for not more" (Py.lower second)) eqn:Hv.
        -- rewrite (title_scan_reaches lines m
                      (Title.State (Some (Py.rstrip title)) true (Z.of_nat m)));
             try done; try lia.
           apply (title_body_one_line _ _ _ _ marker title second);
             try done; try lia.
           ++ now rewrite Nat2Z.id.
           ++ now replace (Z.to_nat (Z.of_nat m + 1)) with (m + 1)%nat by lia.
           ++ now replace (Z.to_nat (Z.of_nat m + 2)) with (m + 2)%nat by lia.
        -- rewrite (title_scan_glues lines m marker title second);
             try done; lia.
      * rewrite (title_scan_reaches_raise lines m IndexError);
          try done; try lia.
        apply (title_body_short _ _ _ _ marker); try done; try lia.
        -- now rewrite Nat2Z.id.
        -- right. now replace (Z.to_nat (Z.of_nat m + 2)) with (m + 2)%nat by lia.
    + rewrite (title_scan_reaches_raise lines m IndexError);
        try done; try lia.
      apply (title_body_short _ _ _ _ marker); try done; try lia.
      * now rewrite Nat2Z.id.
      * left. now replace (Z.to_nat (Z.of_nat m + 1)) with (m + 1)%nat by lia.
  - apply list_find_None in Hfind.
    destruct (Z.leb_spec 10000 (Z.of_nat (length lines))) as [Hlong|Hshort].
    + rewrite title_scan_hits_ceiling; try done; try lia.
      intros i line Hi Hline. apply not_true_false.
      eapply (Forall_lookup_1 _ _ i line Hfind).
      rewrite lookup_take_lt by lia. exact Hline.
    + rewrite take_ge in Hfind by lia.
      rewrite title_scan_runs_off; try done; try lia.
      eapply Forall_impl; [exact Hfind|]. intros line. apply not_true_false.
Qed.

Lemma grab_contest_title_closed_form_witness :
  grab_contest_title (Z.to_nat 10001) senate_contest
  = title_of_lines (Py.splitlines senate_contest).
Proof. apply grab_contest_title_closed_form. vm_compute. reflexivity. Defined.

(** ** More on the precinct scan *)

Lemma region_body_found contest f c (j : Z) line :
  0 <= j -> contest !! Z.to_nat j = Some line ->
  is_first_precinct line = true ->
  Region.body contest (Region.State f j c)
  = Ret (Region.State true j (Some (drop (Z.to_nat j) contest))).
Proof.
  intros Hj Hline Hm. unfold Region.body. cbn [Region.k].
  rewrite (getitem_nat contest j), Hline by lia. cbn [mbind outcome_bind].
  unfold is_first_precinct in Hm. rewrite Hm. reflexivity.
Qed.

Lemma region_scan_reaches (contest : list string) (m : nat) first :
  (forall (i : nat) line,
      (i < m)%nat -> contest !! i = Some line ->
      is_first_precinct line = false) ->
  contest !! m = Some first -> is_first_precinct first = true ->
  Z.of_nat m <= 10000 ->
  forall (fuel : nat) (j : nat) c,
    (j <= m)%nat -> (m - j < fuel)%nat ->
    while fuel Region.cond (Region.body contest)
      (Region.State false (Z.of_nat j) c)
    = Ret (Region.State true (Z.of_nat m) (Some (drop m contest))).
Proof.
  intros Hbefore Hfirst Hm Hceil fuel.
  induction fuel as [|fuel IH]; intros j c Hj Hfuel; [lia|].
  rewrite while_step by reflexivity.
  destruct (decide (j = m)) as [->|Hne].
  - rewrite (region_body_found _ _ _ _ first); [|lia|now rewrite Nat2Z.id|done].
    cbn [mbind outcome_bind]. rewrite Nat2Z.id. now apply while_stop.
  - destruct (contest !! j) as [line|] eqn:Hline.
    2:{ apply lookup_ge_None in Hline. apply lookup_lt_Some in Hfirst. lia. }
    rewrite (region_body_skip _ _ _ _ line); [|lia|now rewrite Nat2Z.id|].
    + cbn [mbind outcome_bind].
      replace (Z.of_nat j + 1) with (Z.of_nat (S j)) by lia.
      apply IH; lia.
    + eapply Hbefore; eauto. lia.
Qed.

(** X4. With a budget above ten thousand and one passes
    [verify_precincts] is decided by the first precinct-shaped line among
    the first ten thousand and one lines: it returns the lines from
    there to the end.  Without such a line it raises [IndexError] when
    the block has at most ten thousand lines, and otherwise uses up
    every such budget; a precinct line further down is never
    reached. *)
Theorem verify_precincts_closed_form (fuel : nat) (contest : string) :
  10001 < Z.of_nat fuel ->
  verify_precincts fuel contest = region_of_lines (Py.splitlines contest).
Proof.
  intros Hfuel. unfold verify_precincts, region_of_lines.
  set (lines := Py.splitlines contest).
  change Region.init with (Region.State false (Z.of_nat 0) None).
  destruct (list_find _ (take (Z.to_nat 10001) lines)) as [[m first]|] eqn:Hfind.
  - apply list_find_Some in Hfind as (Hm & Hfirst & Hleast).
    apply lookup_take_Some in Hm as [Hm Hceil].
    rewrite (region_scan_reaches lines m first); try done; try lia.
    intros i line Hi Hline. apply not_true_false. eapply (Hleast i); [|lia].
    rewrite lookup_take_lt by lia. exact Hline.
  - apply list_find_None in Hfind.
    destruct (Z.ltb_spec 10000 (Z.of_nat (length lines))) as [Hlong|Hshort].
    + rewrite region_scan_spins; try done; try lia.
      intros i line Hi Hline. apply not_true_false.
      eapply (Forall_lookup_1 _ _ i line Hfind).
      rewrite lookup_take_lt by lia. exact Hline.
    + rewrite take_ge in Hfind by lia.
      rewrite region_scan_runs_off; try done; try lia.
      eapply Forall_impl; [exact Hfind|]. intros line. apply not_true_false.
Qed.

Lemma verify_precincts_closed_form_witness :
  verify_precincts (Z.to_nat 10002) senate_contest
  = region_of_lines (Py.splitlines senate_contest).
Proof. apply verify_precincts_closed_form. vm_compute. reflexivity. Defined.

Lemma region_body_raises contest st e :
  Region.body contest st = Raise e -> e = IndexError.
Proof.
  unfold Region.body, Py.getitem.
  repeat match goal with
         | |- context [if ?b then _ else _] => destruct b
         | |- context [match ?l !! ?i with _ => _ end] => destruct (l !! i)
         | _ => progress cbn [mbind outcome_bind]
         end; congruence.
Qed.

(** What the precinct loop keeps: the lines before [k] have no precinct
    shape, and once the flag is set the region is the lines from [k]
    on, the one at [k] having that shape. *)
Lemma region_body_keeps contest st st' :
  (0 <= Region.k st
   /\ (forall (i : nat) line,
         Z.of_nat i < Region.k st -> contest !! i = Some line ->
         is_first_precinct line = false)) ->
  Region.cond st = true ->
  Region.body contest st = Ret st' ->
  (0 <= Region.k st'
   /\ (forall (i : nat) line,
         Z.of_nat i < Region.k st' -> contest !! i = Some line ->
         is_first_precinct line = false))
  /\ (Region.found_first_precinct st' = true ->
      exists first,
        contest !! Z.to_nat (Region.k st') = Some first
        /\ is_first_precinct first = true
        /\ Region.contest_cleaned st'
           = Some (drop (Z.to_nat (Region.k st')) contest)).
Proof.
  destruct st as [f k c]. cbn [Region.k]. intros [Hk Hbefore] Hcond.
  unfold Region.cond in Hcond. cbn in Hcond. apply negb_true_iff in Hcond.
  subst f. unfold Region.body. cbn [Region.k Region.found_first_precinct
                                     Region.contest_cleaned].
  rewrite (getitem_nat contest k) by lia.
  destruct (contest !! Z.to_nat k) as [line|] eqn:Hline;
    cbn [mbind outcome_bind]; [|discriminate].
  fold (is_first_precinct line).
  destruct (is_first_precinct line) eqn:Hshape.
  - intros [= <-]. cbn [Region.k Region.found_first_precinct
                         Region.contest_cleaned].
    split; [auto|]. intros _. exists line. auto.
  - destruct (k <? 10000).
    + intros [= <-]. cbn [Region.k Region.found_first_precinct
                           Region.contest_cleaned].
      split; [|discriminate]. split; [lia|].
      intros i l Hi Hl. destruct (decide (Z.of_nat i = k)) as [<-|Hne].
      * rewrite Nat2Z.id in Hline. congruence.
      * apply (Hbefore i); [lia | done].
    + intros [= <-]. cbn [Region.k Region.found_first_precinct
                           Region.contest_cleaned].
      split; [auto | discriminate].
Qed.

Lemma verify_precincts_cases (fuel : nat) (contest : string) :
  match verify_precincts fuel contest with
  | Ret region =>
      exists (m : nat) first,
        Py.splitlines contest !! m = Some first
        /\ is_first_precinct first = true
        /\ (forall (i : nat) line,
              (i < m)%nat -> Py.splitlines contest !! i = Some line ->
              is_first_precinct line = false)
        /\ region = drop m (Py.splitlines contest)
        /\ region <> []
  | Raise e => e = IndexError
  | OutOfFuel => True
  end.
Proof.
  unfold verify_precincts. set (lines := Py.splitlines contest).
  destruct (while fuel Region.cond (Region.body lines) Region.init)
    as [st|e|] eqn:Hrun; cbn [mbind outcome_bind]; [| |exact I].
  - pose proof (while_invariant
      (fun st =>
         (0 <= Region.k st
          /\ (forall (i : nat) line,
                Z.of_nat i < Region.k st -> lines !! i = Some line ->
                is_first_precinct line = false))
         /\ (Region.found_first_precinct st = true ->
             exists first,
               lines !! Z.to_nat (Region.k st) = Some first
               /\ is_first_precinct first = true
               /\ Region.contest_cleaned st
                  = Some (drop (Z.to_nat (Region.k st)) lines)))
      Region.cond (Region.body lines)) as Hinv.
    destruct (Hinv) with (fuel := fuel) (st := Region.init) (st' := st)
      as [[[Hk Hbefore] Hfound] Hstop]; [| |exact Hrun|].
    + intros s s' [Hs _] Hc Hb. eapply region_body_keeps; eauto.
    + cbn. split; [|discriminate]. split; [lia|]. intros; lia.
    + unfold Region.cond in Hstop. apply negb_false_iff in Hstop.
      destruct (Hfound Hstop) as (first & Hfirst & Hshape & ->).
      exists (Z.to_nat (Region.k st)), first.
      split; [done|]. split; [done|]. split; [|split; [done|]].
      * intros i line Hi. apply Hbefore. lia.
      * apply lookup_lt_Some in Hfirst. intros Hnil.
        apply (f_equal length) in Hnil. rewrite length_drop in Hnil.
        cbn in Hnil. lia.
  - eapply (while_raises (fun e => e = IndexError)); [|exact Hrun].
    intros st e'. apply region_body_raises.
Qed.

(** X5. Whatever the budget, a region that [verify_precincts] returns
    is the lines of the block from its first precinct-shaped line on,
    hence never empty; and [verify_precincts] raises nothing but
    [IndexError]. *)
Theorem verify_precincts_outcome (fuel : nat) (contest : string) :
  match verify_precincts fuel contest with
  | Ret region =>
      exists (m : nat) first,
        Py.splitlines contest !! m = Some first
        /\ is_first_precinct first = true
        /\ (forall (i : nat) line,
              (i < m)%nat -> Py.splitlines contest !! i = Some line ->
              is_first_precinct line = false)
        /\ region = drop m (Py.splitlines contest)
        /\ region <> []
  | Raise e => e = IndexError
  | OutOfFuel => True
  end.
Proof. apply verify_precincts_cases. Qed.

(** ** More on precinct rows *)

Lemma span_le_hi cls h s : (Re.span cls (Some h) s <= h)%nat.
Proof.
  revert s. induction h as [|h IH]; intros s.
  - destruct s; cbn; lia.
  - destruct s as [|c s]; cbn; [lia|]. destruct (cls c); [|lia].
    specialize (IH s). lia.
Qed.

Lemma span_take cls hi s :
  every cls (Py.take (Re.span cls hi s) s) = true
  /\ Py.len (Py.take (Re.span cls hi s) s) = Re.span cls hi s.
Proof.
  revert hi. induction s as [|c s IH]; intros hi.
  - destruct hi as [[|h]|]; cbn; auto.
  - destruct hi as [[|h]|]; cbn; auto.
    + destruct (cls c) eqn:Hc; cbn; auto. rewrite Hc.
      destruct (IH (Some h)) as [-> ->]. auto.
    + destruct (cls c) eqn:Hc; cbn; auto. rewrite Hc.
      destruct (IH None) as [-> ->]. auto.
Qed.

(** Every match that the scan reports is a match of the pattern at some
    place of the text. *)
Lemma finditer_matches fuel r bol gap s g m :
  (g, m) ∈ (Re.finditer fuel r bol gap s).1 ->
  exists bol' s' n,
    Re.match_here r bol' s' = Some (S n) /\ m = Py.take (S n) s'.
Proof.
  revert bol gap s. induction fuel as [|fuel IH]; intros bol gap s.
  - cbn. intros H. inversion H.
  - cbn [Re.finditer].
    destruct (Re.match_here r bol s) as [[|n]|] eqn:Hm.
    + destruct s as [|c s]; [cbn; intros H; inversion H | apply IH].
    + destruct (Re.finditer fuel r false EmptyString (Py.drop (S n) s))
        as [ms tl] eqn:Hrest. cbn [fst].
      intros [Heq | Hin]%elem_of_cons.
      * injection Heq as -> ->. eauto.
      * eapply (IH false EmptyString (Py.drop (S n) s)).
        rewrite Hrest. exact Hin.
    + destruct s as [|c s]; [cbn; intros H; inversion H | apply IH].
Qed.

Lemma match_id bol s n :
  Re.match_here Pattern.id bol s = Some n ->
  n = 4%nat /\ Re.span Py.isdecimal (Some 4%nat) s = 4%nat.
Proof.
  unfold Pattern.id, Re.exactly. cbn [Re.match_here].
  pose proof (span_le_hi Py.isdecimal 4 s) as Hle.
  destruct (Re.span Py.isdecimal (Some 4%nat) s) as [|[|[|[|[|k]]]]] eqn:Hs;
    cbn; try discriminate; try lia.
  intros [= <-]. auto.
Qed.

Lemma findall_id_four_digits cluster id :
  id ∈ Re.findall Pattern.id cluster -> four_digits id = true.
Proof.
  unfold Re.findall, Re.matches. intros Hin.
  apply list_elem_of_fmap in Hin as [[g m] [-> Hin]]. cbn [snd].
  apply finditer_matches in Hin as (bol' & s' & n & Hm & ->).
  apply match_id in Hm as [Hn Hspan]. rewrite Hn.
  destruct (span_take Py.isdecimal (Some 4%nat) s') as [Hall Hlen].
  rewrite Hspan in Hall, Hlen. unfold four_digits. now rewrite Hall, Hlen.
Qed.

Lemma id_value_cell ids i : 
  (forall id, id ∈ ids -> four_digits id = true) ->
  id_cell (id_value ids i) = true.
Proof.
  intros Hall. unfold id_value.
  destruct (ids !! i) as [id|] eqn:Hi; [|reflexivity].
  cbn. apply Hall. eapply list_elem_of_lookup_2, Hi.
Qed.

(** X6. A record that [precinct_row] returns is made of two identifier
    cells, the precinct name and integer counts.  An identifier cell is
    [None] or a string of exactly four decimal digits, and the second
    one is [None] whenever the first is. *)
Theorem precinct_row_shape (precinct : string) (row : list value) :
  precinct_row precinct = Ret row ->
  exists primary secondary name votes,
    row = primary :: secondary :: VStr name :: (VInt <$> votes)
    /\ id_cell primary = true
    /\ id_cell secondary = true
    /\ (primary = VNone -> secondary = VNone).
Proof.
  intros Hrow.
  destruct (precinct_row_fields precinct) as (cluster & rest & d & _ & Hr).
  rewrite Hr in Hrow.
  destruct (map_each Py.int rest) as [votes| |];
    cbn [mbind outcome_bind] in Hrow; try discriminate.
  injection Hrow as <-.
  set (ids := Re.findall Pattern.id cluster).
  exists (id_value ids 0), (id_value ids 1), d, votes.
  assert (Hids : forall id, id ∈ ids -> four_digits id = true)
    by apply findall_id_four_digits.
  split; [reflexivity|]. split; [now apply id_value_cell|].
  split; [now apply id_value_cell|].
  unfold id_value. destruct ids as [|id0 ids']; [reflexivity|]. discriminate.
Qed.

Lemma precinct_row_shape_witness :
  exists primary secondary name votes,
    [VStr "0002"; VStr "0005"; VStr "Precinct Two";
     VInt 50; VInt 40; VInt 0; VInt 1]
    = primary :: secondary :: VStr name :: (VInt <$> votes)
    /\ id_cell primary = true
    /\ id_cell secondary = true
    /\ (primary = VNone -> secondary = VNone).
Proof.
  apply (precinct_row_shape "0002 0005 Precinct Two   50  40  0  1").
  vm_compute. reflexivity.
Defined.

(** ** More on the header *)

Lemma header_loop_returns (candidates : gmap Z string) ks acc header :
  for_each
    (fun header k => name ← lookup_candidate candidates k;
                     Ret (header ++ [VStr name])) ks acc
  = Ret header ->
  exists names,
    Forall2 (fun k name => candidates !! k = Some name) ks names
    /\ header = acc ++ (VStr <$> names).
Proof.
  revert acc. induction ks as [|k ks IH]; intros acc; cbn [for_each].
  - intros [= <-]. exists []. split; [constructor|]. now rewrite app_nil_r.
  - destruct (candidates !! k) as [name|] eqn:Hk.
    + assert (lookup_candidate candidates k = Ret name) as ->
        by (unfold lookup_candidate; now rewrite Hk).
      cbn [mbind outcome_bind].
      intros (names & Hall & ->)%IH. exists (name :: names).
      split; [now constructor|]. now rewrite <- app_assoc.
    + assert (lookup_candidate candidates k = Raise KeyError) as ->
        by (unfold lookup_candidate; now rewrite Hk).
      discriminate.
Qed.

Lemma header_loop_total (candidates : gmap Z string) ks acc :
  Forall (fun k => is_Some (candidates !! k)) ks ->
  returns
    (for_each
       (fun header k => name ← lookup_candidate candidates k;
                        Ret (header ++ [VStr name])) ks acc).
Proof.
  revert acc. induction ks as [|k ks IH]; intros acc Hall; cbn [for_each].
  - now eexists.
  - apply Forall_cons in Hall as [[name Hk] Hall].
    assert (lookup_candidate candidates k = Ret name) as ->
      by (unfold lookup_candidate; now rewrite Hk).
    cbn [mbind outcome_bind]. now apply IH.
Qed.

(** X7. The header can be built exactly when the roster holds every
    index from 1 to its size. *)
Theorem header_row_returns_iff (candidates : gmap Z string) :
  returns (header_row candidates)
  <-> forall k, 1 <= k <= Z.of_nat (size candidates) ->
        is_Some (candidates !! k).
Proof.
  unfold header_row. split.
  - intros [header Hh] k Hk.
    destruct (candidates !! k) as [name|] eqn:Hlook; [now eexists|].
    rewrite header_loop_raises in Hh; [discriminate|].
    apply Exists_exists. exists k. split; [|exact Hlook].
    apply elem_of_seqZ. lia.
  - intros Hall. apply header_loop_total. apply Forall_forall.
    intros k Hk%elem_of_seqZ. apply Hall. lia.
Qed.

(** X8. A header that is built holds the three fixed column names and
    then, for every index from 1 to the size of the roster and in that
    order, the name the roster has at that index. *)
Theorem header_row_in_index_order (candidates : gmap Z string)
  (header : list value) :
  header_row candidates = Ret header ->
  length header = (3 + size candidates)%nat
  /\ take 3 header
     = [VStr "Primary precinct ID"; VStr "Secondary precinct ID";
        VStr "Precinct name"]
  /\ forall k, 1 <= k <= Z.of_nat (size candidates) ->
       exists name,
         candidates !! k = Some name
         /\ header !! Z.to_nat (k + 2) = Some (VStr name).
Proof.
  unfold header_row. intros (names & Hall & ->)%header_loop_returns.
  pose proof (Forall2_length _ _ _ Hall) as Hlen.
  rewrite length_seqZ, Nat2Z.id in Hlen.
  split; [|split].
  - rewrite length_app, length_fmap. cbn. lia.
  - reflexivity.
  - intros k Hk.
    assert (Hks : seqZ 1 (Z.of_nat (size candidates)) !! Z.to_nat (k - 1)
                  = Some k).
    { rewrite lookup_seqZ_lt by lia. f_equal. lia. }
    destruct (Forall2_lookup_l _ _ _ _ _ Hall Hks) as (name & Hname & Hc).
    exists name. split; [exact Hc|].
    rewrite lookup_app_r by (cbn [length]; lia). cbn [length].
    replace (Z.to_nat (k + 2) - 3)%nat with (Z.to_nat (k - 1)) by lia.
    now rewrite list_lookup_fmap, Hname.
Qed.

Lemma header_row_in_index_order_witness :
  let header :=
    [VStr "Primary precinct ID"; VStr "Secondary precinct ID";
     VStr "Precinct name"; VStr "Alice A"; VStr "Bob B"] in
  let roster : gmap Z string := {[ 1 := "Alice A"; 2 := "Bob B" ]} in
  length header = (3 + size roster)%nat
  /\ take 3 header
     = [VStr "Primary precinct ID"; VStr "Secondary precinct ID";
        VStr "Precinct name"]
  /\ forall k, 1 <= k <= Z.of_nat (size roster) ->
       exists name,
         roster !! k = Some name
         /\ header !! Z.to_nat (k + 2) = Some (VStr name).
Proof.
  apply (header_row_in_index_order {[ 1 := "Alice A"; 2 := "Bob B" ]}).
  vm_compute. reflexivity.
Defined.

(** ** More on the directory of contests *)

Lemma Forall_false_bool {A} (f : A -> bool) (l : list A) :
  forallb (fun x => negb (f x)) l = true -> Forall (fun x => f x = false) l.
Proof.
  induction l as [|x l IH]; cbn; [constructor|].
  intros [Hx Hl]%andb_prop. constructor; [now apply negb_true_iff | auto].
Qed.

Lemma for_each_invariant {A S} (I : S -> Prop) (f : S -> A -> outcome S) l :
  (forall acc x acc', I acc -> x ∈ l -> f acc x = Ret acc' -> I acc') ->
  forall acc acc', I acc -> for_each f l acc = Ret acc' -> I acc'.
Proof.
  induction l as [|x l IH]; intros Hstep acc acc' Hacc; cbn [for_each].
  - now intros [= <-].
  - destruct (f acc x) as [acc1| |] eqn:Hx; cbn [mbind outcome_bind];
      try discriminate.
    apply IH.
    + intros a y a' Ha Hy. apply Hstep; [exact Ha | now right].
    + eapply Hstep; [exact Hacc | now left | exact Hx].
Qed.

(** X9. Every entry of the directory leads to a contest of the report
    under its own title: the value is a position from 1 on, and the key
    is the title of the contest there, or that title followed by the
    decimal digits of the position. *)
Theorem display_contests_entries (fuel : nat) (fs : gmap string string)
  (import_filepath : string) (contests : list string)
  (title : Z -> option string) (d : gmap (option string) Z) :
  read_canvass_from_text fs import_filepath = Ret contests ->
  (forall k, 1 <= k < Z.of_nat (length contests) ->
     exists contest,
       Py.getitem contests k = Ret contest
       /\ grab_contest_title fuel contest = Ret (title k)) ->
  display_contests fuel fs import_filepath = Ret d ->
  map_Forall
    (fun key v =>
       1 <= v < Z.of_nat (length contests)
       /\ (key = title v
           \/ exists t, title v = Some t /\ key = Some (t +:+ Py.str v)))
    d.
Proof.
  intros Hread Htitles Hd. unfold display_contests in Hd. rewrite Hread in Hd.
  cbn [mbind outcome_bind] in Hd.
  revert Hd. apply for_each_invariant; [|apply map_Forall_empty].
  intros acc p acc' Hacc Hp%elem_of_seqZ Hstep.
  rewrite (add_title_at fuel contests title Htitles) in Hstep by lia.
  destruct (acc !! title p) as [v|] eqn:Hlook.
  - destruct (title p) as [t|] eqn:Ht; [|discriminate].
    injection Hstep as <-. apply map_Forall_insert_2; [|exact Hacc].
    split; [lia|]. right. exists t. auto.
  - injection Hstep as <-. apply map_Forall_insert_2; [|exact Hacc].
    split; [lia|]. now left.
Qed.

Lemma display_contests_entries_witness :
  map_Forall
    (fun key v =>
       1 <= v < Z.of_nat
                  (length [preamble; titled_contest "COUNTY COMMISSIONER";
                           titled_contest "STATE ISSUE 1";
                           titled_contest "COUNTY COMMISSIONER"])
       /\ (key = (if decide (v = 2) then Some "STATE ISSUE 1"
                  else Some "COUNTY COMMISSIONER")
           \/ exists t,
               (if decide (v = 2) then Some "STATE ISSUE 1"
                else Some "COUNTY COMMISSIONER") = Some t
               /\ key = Some (t +:+ Py.str v)))
    ({[ Some "COUNTY COMMISSIONER" := 1; Some "STATE ISSUE 1" := 2;
        Some "COUNTY COMMISSIONER3" := 3 ]} : gmap (option string) Z).
Proof.
  apply (display_contests_entries 20 disk "county.txt"
           [preamble; titled_contest "COUNTY COMMISSIONER";
            titled_contest "STATE ISSUE 1";
            titled_contest "COUNTY COMMISSIONER"]
           (fun k => if decide (k = 2) then Some "STATE ISSUE 1"
                     else Some "COUNTY COMMISSIONER")).
  - vm_compute. reflexivity.
  - intros k Hk. cbn [length] in Hk.
    assert (k = 1 \/ k = 2 \/ k = 3) as [-> | [-> | ->]] by lia;
      (eexists; split; [vm_compute; reflexivity|]; vm_compute; reflexivity).
  - vm_compute. reflexivity.
Defined.

(** X10. A report without a separator run lists no contest: whatever
    its text, [display_contests] returns the empty directory, the block
    at position 0 being left unread. *)
Theorem display_contests_without_separator (fuel : nat)
  (fs : gmap string string) (import_filepath : string) (text : string) :
  fs !! import_filepath = Some text ->
  separator_runs (universal_newlines text) = 0%nat ->
  display_contests fuel fs import_filepath = Ret ∅.
Proof.
  intros Hfile Hnone. unfold display_contests, read_canvass_from_text.
  rewrite Hfile, (split_separator_none _ Hnone).
  change [universal_newlines text] with ([] ++ [universal_newlines text]).
  rewrite getitem_last. cbn [mbind outcome_bind].
  destruct (decide (universal_newlines text = EmptyString));
    cbn [mbind outcome_bind]; reflexivity.
Qed.

Lemma display_contests_without_separator_witness :
  display_contests 0 {[ "notes.txt" := "NO VOTES = NO CONTEST" ]} "notes.txt"
  = Ret ∅.
Proof.
  apply (display_contests_without_separator 0 _ _ "NO VOTES = NO CONTEST").
  - vm_compute. reflexivity.
  - vm_compute. reflexivity.
Defined.

Lemma add_title_finishes fuel contests d k :
  10000 < Z.of_nat fuel -> add_title fuel contests d k <> OutOfFuel.
Proof.
  intros Hfuel. unfold add_title.
  destruct (Py.getitem contests k) as [contest|e|] eqn:Hsel;
    cbn [mbind outcome_bind]; [|discriminate|].
  - pose proof (grab_contest_title_total fuel contest Hfuel) as Ht.
    destruct (grab_contest_title fuel contest) as [t|e|];
      cbn [mbind outcome_bind]; [|discriminate|done].
    destruct (d !! t); [destruct t|]; discriminate.
  - unfold Py.getitem in Hsel.
    repeat match type of Hsel with
           | context [if ?b then _ else _] => destruct b
           | context [match ?l !! ?i with _ => _ end] => destruct (l !! i)
           end; discriminate.
Qed.

Lemma for_each_raises_at {A S} (f : S -> A -> outcome S) l x acc :
  (forall acc y, f acc y <> OutOfFuel) ->
  x ∈ l -> (forall acc, raises (f acc x)) ->
  raises (for_each f l acc).
Proof.
  intros Hfin Hx Hraise. revert acc.
  induction l as [|y l IH]; intros acc; [inversion Hx|].
  cbn [for_each]. apply elem_of_cons in Hx as [<- | Hx].
  - destruct (Hraise acc) as [e ->]. now exists e.
  - pose proof (Hfin acc y) as Hy.
    destruct (f acc y) as [acc1|e|]; cbn [mbind outcome_bind];
      [now apply IH | now exists e | done].
Qed.

(** X11. One contest block without a marker line, and with fewer lines
    than the ceiling, is enough to make [display_contests] raise for the
    whole report. *)
Theorem display_contests_unmarked_block (fuel : nat)
  (fs : gmap string string) (import_filepath : string)
  (contests : list string) (k : Z) (contest : string) :
  read_canvass_from_text fs import_filepath = Ret contests ->
  1 <= k < Z.of_nat (length contests) ->
  Py.getitem contests k = Ret contest ->
  Forall (fun line => is_marker line = false) (Py.splitlines contest) ->
  Z.of_nat (length (Py.splitlines contest)) < 10000 ->
  10000 < Z.of_nat fuel ->
  raises (display_contests fuel fs import_filepath).
Proof.
  intros Hread Hk Hsel Hno Hlen Hfuel. unfold display_contests.
  rewrite Hread. cbn [mbind outcome_bind].
  apply (for_each_raises_at _ _ k).
  - intros acc y. now apply add_title_finishes.
  - apply elem_of_seqZ. lia.
  - intros acc. exists IndexError. unfold add_title. rewrite Hsel.
    cbn [mbind outcome_bind]. unfold grab_contest_title.
    change Title.init with (Title.State None false (Z.of_nat 0)).
    rewrite title_scan_runs_off; auto; lia.
Qed.

Lemma display_contests_unmarked_block_witness :
  raises (display_contests (Z.to_nat 10001)
            {[ "unmarked.txt" := unmarked_report ]} "unmarked.txt").
Proof.
  apply (display_contests_unmarked_block (Z.to_nat 10001) _ _
           [preamble; titled_contest "COUNTY COMMISSIONER";
            newline +:+ text_of_lines ["END OF REPORT"]]
           2 (newline +:+ text_of_lines ["END OF REPORT"])).
  - vm_compute. reflexivity.
  - cbn [length]. lia.
  - vm_compute. reflexivity.
  - apply Forall_false_bool. vm_compute. reflexivity.
  - vm_compute. reflexivity.
  - vm_compute. reflexivity.
Defined.

(** ** More on the table of one contest *)

(** X13. A contest block without any precinct-shaped line cannot be
    tabulated: once its title and roster are read,
    [gen_election_table] raises [IndexError] and writes nothing. *)
Theorem contest_without_precincts_is_fatal (fuel : nat)
  (fs : gmap string string) (import_filepath : string) (contest_number : Z)
  (export : option string) (contests : list string) (contest : string) :
  read_canvass_from_text fs import_filepath = Ret contests ->
  contest_number < Z.of_nat (length contests) ->
  Py.getitem contests contest_number = Ret contest ->
  returns (grab_contest_title fuel contest) ->
  returns (grab_candidates contest) ->
  Forall (fun line => is_first_precinct line = false) (Py.splitlines contest) ->
  Z.of_nat (length (Py.splitlines contest)) <= 10000 ->
  (length (Py.splitlines contest) < fuel)%nat ->
  gen_election_table fuel fs import_filepath contest_number export
  = (Raise IndexError, fs).
Proof.
  intros Hread Hn Hsel [title Ht] [candidates Hc] Hno Hlen Hfuel.
  unfold gen_election_table, contest_table. rewrite Hread.
  cbn [mbind outcome_bind].
  replace (contest_number <? Z.of_nat (length contests)) with true
    by (symmetry; apply Z.ltb_lt; lia).
  cbn [negb]. rewrite Hsel. cbn [mbind outcome_bind].
  rewrite Ht. cbn [mbind outcome_bind]. rewrite Hc. cbn [mbind outcome_bind].
  unfold grab_precincts, verify_precincts.
  change Region.init with (Region.State false (Z.of_nat 0) None).
  rewrite region_scan_runs_off; auto; lia.
Qed.

Lemma contest_without_precincts_is_fatal_witness :
  gen_election_table 20 disk "county.txt" 2 (Some "issue.csv")
  = (Raise IndexError, disk).
Proof.
  apply (contest_without_precincts_is_fatal 20 disk "county.txt" 2
           (Some "issue.csv")
           [preamble; titled_contest "COUNTY COMMISSIONER";
            titled_contest "STATE ISSUE 1";
            titled_contest "COUNTY COMMISSIONER"]
           (titled_contest "STATE ISSUE 1")).
  - vm_compute. reflexivity.
  - cbn [length]. lia.
  - vm_compute. reflexivity.
  - eexists. vm_compute. reflexivity.
  - eexists. vm_compute. reflexivity.
  - apply Forall_false_bool. vm_compute. reflexivity.
  - vm_compute. discriminate.
  - vm_compute. lia.
Defined.

(** ** More on segmentation *)

Lemma take_drop_str n s : Py.take n s +:+ Py.drop n s = s.
Proof.
  revert s. induction n as [|n IH]; intros s; [reflexivity|].
  destruct s as [|c s]; [reflexivity|]. cbn [Py.take Py.drop].
  now rewrite app_cons, IH.
Qed.

Lemma finditer_rejoin fuel r bol gap s :
  rejoin (Re.finditer fuel r bol gap s).1 (Re.finditer fuel r bol gap s).2
  = gap +:+ s.
Proof.
  revert bol gap s. induction fuel as [|fuel IH]; intros bol gap s;
    [reflexivity|].
  cbn [Re.finditer].
  destruct (Re.match_here r bol s) as [[|n]|] eqn:Hm.
  - destruct s as [|c s]; [cbn; now rewrite app_empty_r|].
    now rewrite IH, app_assoc_str.
  - specialize (IH false EmptyString (Py.drop (S n) s)).
    destruct (Re.finditer fuel r false EmptyString (Py.drop (S n) s))
      as [ms tl]. unfold rejoin in *. cbn [fst snd foldr] in *.
    rewrite IH, app_empty. now rewrite take_drop_str.
  - destruct s as [|c s]; [cbn; now rewrite app_empty_r|].
    now rewrite IH, app_assoc_str.
Qed.

Lemma interleave_all (ms : list (string * string)) tl :
  interleave ((fst <$> ms) ++ [tl]) (snd <$> ms) = rejoin ms tl.
Proof.
  induction ms as [|[g m] ms IH]; cbn; [now rewrite app_empty_r|].
  now rewrite IH.
Qed.

Lemma interleave_but_last (ms : list (string * string)) :
  interleave (fst <$> ms) (snd <$> ms) = rejoin ms EmptyString.
Proof. induction ms as [|[g m] ms IH]; cbn; [reflexivity|]. now rewrite IH. Qed.

Lemma separator_matches_are_rules s :
  Forall (fun m => is_rule m = true) (Re.findall Pattern.separator s).
Proof.
  apply Forall_forall. intros m Hin. unfold Re.findall, Re.matches in Hin.
  apply list_elem_of_fmap in Hin as [[g m'] [-> Hin]]. cbn [snd].
  apply finditer_matches in Hin as (bol' & s' & n & Hm & ->).
  rewrite match_separator in Hm.
  destruct (Nat.ltb_spec (Re.span (Re.chr "=") None s') 2);
    [discriminate|]. injection Hm as Hm.
  destruct (span_take (Re.chr "=") None s') as [Hall Hlen].
  rewrite Hm in Hall, Hlen. unfold is_rule. rewrite Hall, Hlen.
  rewrite andb_true_r. apply Nat.leb_le. lia.
Qed.

(** X14. Segmentation loses nothing but the separators, which are runs
    of two or more "=": the blocks that [read_canvass_from_text]
    returns, with the separator runs of the text put back between
    them, are the text that was read. *)
Theorem read_canvass_rejoins (fs : gmap string string)
  (import_filepath : string) (text : string) (contests : list string) :
  fs !! import_filepath = Some text ->
  read_canvass_from_text fs import_filepath = Ret contests ->
  interleave contests
    (Re.findall Pattern.separator (universal_newlines text))
  = universal_newlines text
  /\ Forall (fun m => is_rule m = true)
       (Re.findall Pattern.separator (universal_newlines text)).
Proof.
  intros Hfile Hread. split; [|apply separator_matches_are_rules].
  unfold read_canvass_from_text in Hread. rewrite Hfile in Hread.
  set (canvass := universal_newlines text) in *.
  unfold Re.split, Re.findall, Re.matches in *.
  pose proof (finditer_rejoin (S (Py.len canvass)) Pattern.separator true
                EmptyString canvass) as Hjoin.
  destruct (Re.finditer (S (Py.len canvass)) Pattern.separator true
              EmptyString canvass) as [ms tl].
  cbn [fst snd] in *. rewrite app_empty in Hjoin.
  rewrite getitem_last in Hread. cbn [mbind outcome_bind] in Hread.
  destruct (decide (tl = EmptyString)) as [->|Hne].
  - injection Hread as <-. rewrite removelast_last.
    now rewrite interleave_but_last.
  - injection Hread as <-. now rewrite interleave_all.
Qed.

Lemma read_canvass_rejoins_witness :
  interleave [preamble; senate_contest]
    (Re.findall Pattern.separator (universal_newlines senate_report))
  = universal_newlines senate_report
  /\ Forall (fun m => is_rule m = true)
       (Re.findall Pattern.separator (universal_newlines senate_report)).
Proof.
  apply (read_canvass_rejoins disk "senate.txt").
  - vm_compute. reflexivity.
  - vm_compute. reflexivity.
Defined.










(** ** More on the roster *)

Lemma match_exactly cls k r bol s m :
  Re.match_here (Re.Rep cls k (Some k) :: r) bol s = Some m ->
  exists m',
    m = (k + m')%nat /\ Re.span cls (Some k) s = k
    /\ Re.match_here r (bol && (k =? 0)%nat) (Py.drop k s) = Some m'.
Proof.
  cbn [Re.match_here]. pose proof (span_le_hi cls k s) as Hle.
  destruct (Nat.eq_dec (Re.span cls (Some k) s) k) as [Heq|Hne].
  - rewrite Heq. destruct k as [|k]; cbn [Re.backtrack].
    + destruct (Re.match_here r _ _) as [m'|] eqn:Hm; cbn; [|discriminate].
      intros [= <-]. eauto.
    + rewrite Nat.ltb_irrefl.
      destruct (Re.match_here r _ _) as [m'|] eqn:Hm; cbn.
      * intros [= <-]. eauto.
      * destruct k as [|k]; cbn [Re.backtrack].
        -- discriminate.
        -- replace (S k <? S (S k))%nat with true
             by (symmetry; apply Nat.ltb_lt; lia).
           discriminate.
  - destruct (Re.span cls (Some k) s) as [|n] eqn:Hs; cbn [Re.backtrack].
    + replace (0 <? k)%nat with true by (symmetry; apply Nat.ltb_lt; lia).
      discriminate.
    + replace (S n <? k)%nat with true by (symmetry; apply Nat.ltb_lt; lia).
      discriminate.
Qed.

Lemma span_one cls s :
  Re.span cls (Some 1%nat) s = 1%nat ->
  exists c s', s = String c s' /\ cls c = true.
Proof.
  destruct s as [|c s']; cbn; [discriminate|].
  destruct (cls c) eqn:Hc; [|discriminate]. eauto.
Qed.

Lemma span_two cls s :
  Re.span cls (Some 2%nat) s = 2%nat ->
  exists c1 c2 s', s = String c1 (String c2 s') /\ cls c1 = true /\ cls c2 = true.
Proof.
  destruct s as [|c1 s]; cbn; [discriminate|].
  destruct (cls c1) eqn:H1; [|discriminate].
  destruct s as [|c2 s]; cbn; [discriminate|].
  destruct (cls c2) eqn:H2; [|discriminate]. eauto 6.
Qed.

Lemma match_plus cls bol s m :
  Re.match_here [Re.Rep cls 1 None] bol s = Some m ->
  m = Re.span cls None s /\ (1 <= m)%nat.
Proof.
  cbn [Re.match_here].
  destruct (Re.span cls None s) as [|n]; cbn; [discriminate|].
  intros [= <-]. lia.
Qed.

(** A match of the candidate pattern: two digits, white space, "=",
    white space, and one or more characters of a name. *)
Lemma candidate_match_shape bol s n :
  Re.match_here Pattern.candidate bol s = Some n ->
  exists d1 d2 w1 w2 rest,
    s = String d1 (String d2 (String w1 (String "=" (String w2 rest))))
    /\ Py.isdecimal d1 = true /\ Py.isdecimal d2 = true
    /\ Py.isspace w1 = true /\ Py.isspace w2 = true
    /\ n = (5 + Re.span Pattern.name_char None rest)%nat.
Proof.
  unfold Pattern.candidate, Re.exactly, Re.one. intros Hm.
  apply match_exactly in Hm as (m1 & -> & Hs1 & Hm).
  apply span_two in Hs1 as (d1 & d2 & s1 & -> & Hd1 & Hd2).
  cbn [Py.drop] in Hm.
  apply match_exactly in Hm as (m2 & -> & Hs2 & Hm).
  apply span_one in Hs2 as (w1 & s2 & -> & Hw1). cbn [Py.drop] in Hm.
  apply match_exactly in Hm as (m3 & -> & Hs3 & Hm).
  apply span_one in Hs3 as (e & s3 & -> & He). cbn [Py.drop] in Hm.
  apply match_exactly in Hm as (m4 & -> & Hs4 & Hm).
  apply span_one in Hs4 as (w2 & s4 & -> & Hw2). cbn [Py.drop] in Hm.
  apply match_plus in Hm as [-> _].
  unfold Re.chr in He. apply Ascii.eqb_eq in He as <-.
  exists d1, d2, w1, w2, s4. repeat split; auto.
Qed.

Lemma rstrip_cons c s :
  Py.rstrip (String c s)
  = match Py.rstrip s with
    | EmptyString => if Py.isspace c then EmptyString else String c EmptyString
    | r => String c r
    end.
Proof. reflexivity. Qed.

Lemma rstrip_cons_keep c s :
  Py.rstrip s <> EmptyString -> Py.rstrip (String c s) = String c (Py.rstrip s).
Proof. intros Hne. rewrite rstrip_cons. now destruct (Py.rstrip s). Qed.

Lemma eq_not_space : Py.isspace "=" = false.
Proof. reflexivity. Qed.

(** Trimming a candidate match on the right leaves its head, up to the
    "=", in place. *)
Lemma rstrip_candidate d1 d2 w1 rest :
  Py.rstrip (String d1 (String d2 (String w1 (String "=" rest))))
  = String d1 (String d2 (String w1 (String "=" (Py.rstrip rest)))).
Proof.
  assert (H4 : Py.rstrip (String "=" rest) = String "=" (Py.rstrip rest)).
  { rewrite rstrip_cons. now destruct (Py.rstrip rest). }
  assert (H3 : Py.rstrip (String w1 (String "=" rest))
               = String w1 (String "=" (Py.rstrip rest))).
  { rewrite (rstrip_cons_keep w1); rewrite H4; [reflexivity|discriminate]. }
  assert (H2 : Py.rstrip (String d2 (String w1 (String "=" rest)))
               = String d2 (String w1 (String "=" (Py.rstrip rest)))).
  { rewrite (rstrip_cons_keep d2); rewrite H3; [reflexivity|discriminate]. }
  rewrite (rstrip_cons_keep d1); rewrite H2; [reflexivity|discriminate].
Qed.

Lemma every_rstrip cls s : every cls s = true -> every cls (Py.rstrip s) = true.
Proof.
  induction s as [|c s IH]; [reflexivity|]. cbn [every].
  intros [Hc Hs]%andb_prop. rewrite rstrip_cons.
  destruct (Py.rstrip s) as [|d r] eqn:Hr.
  - destruct (Py.isspace c); cbn [every]; [reflexivity|]. now rewrite Hc.
  - cbn [every] in *. rewrite Hc. now apply IH.
Qed.

Lemma digit_cases d :
  Py.isdecimal d = true ->
  d ∈ ["0"; "1"; "2"; "3"; "4"; "5"; "6"; "7"; "8"; "9"]%char.
Proof.
  destruct d as [[] [] [] [] [] [] [] []]; intros H;
    try discriminate H; repeat first [apply list_elem_of_here | apply list_elem_of_further].
Qed.

Lemma space_cases_int w :
  Py.isspace w = true ->
  Py.isdecimal w = false /\ Ascii.eqb w "_" = false /\ Ascii.eqb " " "=" = false.
Proof.
  destruct w as [[] [] [] [] [] [] [] []]; intros H;
    try discriminate H; repeat split.
Qed.

Lemma rstrip_of_cons_nonspace ws c s :
  ws c = false -> exists r, Py.rstrip_of ws (String c s) = String c r.
Proof.
  intros Hc. cbn. rewrite Hc. destruct (Py.rstrip_of ws s); eauto.
Qed.

Lemma rstrip_of_cons_keep ws c s :
  Py.rstrip_of ws s <> EmptyString ->
  Py.rstrip_of ws (String c s) = String c (Py.rstrip_of ws s).
Proof. intros Hne. cbn. now destruct (Py.rstrip_of ws s). Qed.

Lemma rstrip_of_head ws a b c e rest :
  ws e = false ->
  exists tail,
    Py.rstrip_of ws (String a (String b (String c (String e rest))))
    = String a (String b (String c (String e tail))).
Proof.
  intros He. destruct (rstrip_of_cons_nonspace ws e rest He) as [tail Htail].
  exists tail.
  assert (H3 : Py.rstrip_of ws (String c (String e rest))
               = String c (String e tail)).
  { rewrite (rstrip_of_cons_keep ws c); rewrite Htail;
      [reflexivity|discriminate]. }
  assert (H2 : Py.rstrip_of ws (String b (String c (String e rest)))
               = String b (String c (String e tail))).
  { rewrite (rstrip_of_cons_keep ws b); rewrite H3;
      [reflexivity|discriminate]. }
  rewrite (rstrip_of_cons_keep ws a); rewrite H2; [reflexivity|discriminate].
Qed.

Ltac digit_case H :=
  apply digit_cases in H;
  repeat (apply elem_of_cons in H as [-> | H]);
  [..| now apply elem_of_nil in H].

Lemma int_two_digits d1 d2 :
  Py.isdecimal d1 = true -> Py.isdecimal d2 = true ->
  exists k, Py.int (String d1 (String d2 EmptyString)) = Ret k /\ 0 <= k <= 99.
Proof.
  intros H1 H2. digit_case H1; digit_case H2;
    (eexists; split; [vm_compute; reflexivity | lia]).
Qed.

Lemma parse_int_digit_head d s r :
  Py.isdecimal d = true ->
  Py.rstrip_of Py.int_space (String d s) = String d r ->
  Py.parse_int (String d s) = Py.int_digits 0 false (String d r).
Proof.
  intros Hd Hr. unfold Py.parse_int.
  digit_case Hd;
    (cbn [Py.lstrip_of];
     match goal with
     | |- context [Py.int_space ?c] => change (Py.int_space c) with false
     end; cbv iota; rewrite Hr; reflexivity).
Qed.

Lemma int_digits_digit acc b d s :
  Py.isdecimal d = true ->
  Py.int_digits acc b (String d s)
  = Py.int_digits (10 * acc + Py.digit_value d) true s.
Proof. intros Hd. cbn [Py.int_digits]. now rewrite Hd. Qed.

Lemma int_digits_space acc b w s :
  Py.isspace w = true -> Py.int_digits acc b (String w s) = None.
Proof.
  intros Hw. destruct (space_cases_int w Hw) as (Hd & Hu & _).
  cbn [Py.int_digits]. now rewrite Hd, Hu.
Qed.

(** [int] rejects a text that starts with two digits, white space and
    "=". *)
Lemma parse_int_candidate_head d1 d2 w1 rest :
  Py.isdecimal d1 = true -> Py.isdecimal d2 = true -> Py.isspace w1 = true ->
  Py.parse_int (String d1 (String d2 (String w1 (String "=" rest)))) = None.
Proof.
  intros H1 H2 Hw.
  destruct (rstrip_of_head Py.int_space d1 d2 w1 "=" rest eq_refl)
    as [tail Htail].
  rewrite (parse_int_digit_head d1 _ _ H1 Htail).
  rewrite (int_digits_digit _ _ d1), (int_digits_digit _ _ d2) by assumption.
  now apply int_digits_space.
Qed.

Lemma finditer_skip fuel r bol gap c s :
  (forall n, Re.match_here r bol (String c s) <> Some (S n)) ->
  Re.finditer (S fuel) r bol gap (String c s)
  = Re.finditer fuel r false (gap +:+ String c EmptyString) s.
Proof.
  intros Hno. cbn [Re.finditer].
  destruct (Re.match_here r bol (String c s)) as [[|n]|]; try reflexivity.
  now destruct (Hno n).
Qed.

Lemma finditer_hit fuel r bol gap s n :
  Re.match_here r bol s = Some (S n) ->
  Re.finditer (S fuel) r bol gap s
  = (let '(ms, tl) :=
       Re.finditer fuel r false EmptyString (Py.drop (S n) s) in
     ((gap, Py.take (S n) s) :: ms, tl)).
Proof. intros Hm. cbn [Re.finditer]. now rewrite Hm. Qed.

(** The first piece of a split starts with the text skipped so far. *)
Lemma finditer_first_prefix fuel r bol gap s :
  exists rest ps,
    (fst <$> (Re.finditer fuel r bol gap s).1)
      ++ [(Re.finditer fuel r bol gap s).2]
    = (gap +:+ rest) :: ps.
Proof.
  revert bol gap s. induction fuel as [|fuel IH]; intros bol gap s.
  - cbn. eauto.
  - cbn [Re.finditer].
    destruct (Re.match_here r bol s) as [[|n]|].
    + destruct s as [|c s].
      * cbn. exists EmptyString, []. now rewrite app_empty_r.
      * destruct (IH false (gap +:+ String c EmptyString) s) as (rest & ps & ->).
        exists (String c rest), ps. now rewrite app_assoc_str.
    + destruct (Re.finditer fuel r false EmptyString (Py.drop (S n) s))
        as [ms tl]. cbn. exists EmptyString. rewrite app_empty_r. eauto.
    + destruct s as [|c s].
      * cbn. exists EmptyString, []. now rewrite app_empty_r.
      * destruct (IH false (gap +:+ String c EmptyString) s) as (rest & ps & ->).
        exists (String c rest), ps. now rewrite app_assoc_str.
Qed.

Lemma literal_needs_space bol c s :
  Ascii.eqb " " c = false ->
  Re.match_here (Re.literal " = ") bol (String c s) = None.
Proof.
  intros Hc. cbn [Re.literal Re.match_here Re.one Re.span].
  change (Re.chr " " c) with (Ascii.eqb " " c). rewrite Hc. reflexivity.
Qed.

Lemma digit_not_space d : Py.isdecimal d = true -> Ascii.eqb " " d = false.
Proof. intros Hd. digit_case Hd; reflexivity. Qed.

Lemma literal_match_shape bol s m :
  Re.match_here (Re.literal " = ") bol s = Some m ->
  exists rest, s = String " " (String "=" (String " " rest)) /\ m = 3%nat.
Proof.
  cbn [Re.literal]. unfold Re.one. intros Hm.
  apply match_exactly in Hm as (m1 & -> & Hs1 & Hm).
  apply span_one in Hs1 as (c1 & s1 & -> & H1). cbn [Py.drop] in Hm.
  apply match_exactly in Hm as (m2 & -> & Hs2 & Hm).
  apply span_one in Hs2 as (c2 & s2 & -> & H2). cbn [Py.drop] in Hm.
  apply match_exactly in Hm as (m3 & -> & Hs3 & Hm).
  apply span_one in Hs3 as (c3 & s3 & -> & H3). cbn [Py.drop] in Hm.
  cbn [Re.match_here] in Hm. injection Hm as <-.
  unfold Re.chr in *. apply Ascii.eqb_eq in H1 as <-, H2 as <-, H3 as <-.
  eauto.
Qed.

(** A text of name characters has no " = " in it: the split leaves it
    in one piece. *)
Lemma finditer_name_whole fuel bol gap s :
  (Py.len s < fuel)%nat -> every Pattern.name_char s = true ->
  Re.finditer fuel (Re.literal " = ") bol gap s = ([], gap +:+ s).
Proof.
  revert bol gap s.
  induction fuel as [|fuel IH]; intros bol gap s Hlen Hname; [lia|].
  destruct s as [|c s]; [cbn [Re.finditer]|].
  - destruct (Re.match_here _ _ _) as [[|n]|] eqn:Hm;
      rewrite ?app_empty_r; try reflexivity.
    apply literal_match_shape in Hm as (rest & Habs & _). discriminate.
  - rewrite finditer_skip.
    + cbn [every] in Hname. apply andb_prop in Hname as [_ Hs].
      rewrite IH; [|cbn in Hlen; lia|exact Hs]. now rewrite app_assoc_str.
    + intros n Hm. apply literal_match_shape in Hm as (rest & Heq & _).
      injection Heq as -> ->. cbn [every] in Hname.
      apply andb_prop in Hname as [_ Hname]. apply andb_prop in Hname as [Habs _].
      discriminate Habs.
Qed.

(** Splitting a trimmed candidate match at " = ": the index and the
    name, or a first piece that still holds the "=". *)
Lemma split_candidate d1 d2 w1 tail :
  Py.isdecimal d1 = true -> Py.isdecimal d2 = true ->
  every Pattern.name_char tail = true -> ends_with_space tail = false ->
  (exists name,
      str_split " = " (String d1 (String d2 (String w1 (String "=" tail))))
      = [String d1 (String d2 EmptyString); name]
      /\ name <> EmptyString /\ ends_with_space name = false
      /\ every Pattern.name_char name = true)
  \/ (exists rest ps,
         str_split " = " (String d1 (String d2 (String w1 (String "=" tail))))
         = String d1 (String d2 (String w1 (String "=" rest))) :: ps).
Proof.
  intros H1 H2 Hname Hend. unfold str_split, Re.split, Re.matches.
  cbn [Py.len].
  rewrite finditer_skip
    by (intros n; rewrite literal_needs_space; [discriminate|];
        now apply digit_not_space).
  rewrite finditer_skip
    by (intros n; rewrite literal_needs_space; [discriminate|];
        now apply digit_not_space).
  rewrite app_empty, app_cons, app_empty.
  destruct (Re.match_here (Re.literal " = ") false
              (String w1 (String "=" tail))) as [[|n]|] eqn:Hm.
  - right. rewrite finditer_skip by (intros n; rewrite Hm; discriminate).
    rewrite finditer_skip
      by (intros n; rewrite literal_needs_space; [discriminate|reflexivity]).
    rewrite !app_cons, !app_empty.
    destruct (finditer_first_prefix (S (Py.len tail)) (Re.literal " = ") false
                (String d1 (String d2 (String w1 (String "=" EmptyString))))
                tail) as (rest & ps & Hp).
    destruct (Re.finditer _ _ _ _ tail) as [ms tl]. cbn [fst snd] in Hp.
    rewrite Hp. rewrite !app_cons, app_empty. eauto.
  - left. rewrite (finditer_hit _ _ _ _ _ n Hm).
    apply literal_match_shape in Hm as (name & Heq & Hn).
    injection Heq as -> ->. injection Hn as ->. cbn [Py.drop Py.take].
    cbn [every] in Hname. apply andb_prop in Hname as [_ Hname].
    rewrite finditer_name_whole by (cbn [Py.len]; auto; lia).
    rewrite app_empty. cbn [fst fmap list_fmap app].
    exists name. split; [reflexivity|].
    destruct name as [|c name]; [discriminate Hend|].
    split; [discriminate|]. split; [exact Hend | exact Hname].
  - right. rewrite finditer_skip by (intros n; rewrite Hm; discriminate).
    rewrite finditer_skip
      by (intros n; rewrite literal_needs_space; [discriminate|reflexivity]).
    rewrite !app_cons, !app_empty.
    destruct (finditer_first_prefix (S (Py.len tail)) (Re.literal " = ") false
                (String d1 (String d2 (String w1 (String "=" EmptyString))))
                tail) as (rest & ps & Hp).
    destruct (Re.finditer _ _ _ _ tail) as [ms tl]. cbn [fst snd] in Hp.
    rewrite Hp. rewrite !app_cons, app_empty. eauto.
Qed.

Lemma add_candidate_outcome candidates d1 d2 w1 rest :
  Py.isdecimal d1 = true -> Py.isdecimal d2 = true -> Py.isspace w1 = true ->
  every Pattern.name_char rest = true ->
  match add_candidate candidates
          (String d1 (String d2 (String w1 (String "=" rest)))) with
  | Ret candidates' =>
      exists k name,
        candidates' = <[k := name]> candidates /\ roster_entry k name
  | Raise e => e = ValueError
  | OutOfFuel => False
  end.
Proof.
  intros H1 H2 Hw Hname. unfold add_candidate. rewrite rstrip_candidate.
  destruct (split_candidate d1 d2 w1 (Py.rstrip rest) H1 H2)
    as [(name & -> & Hne & Hend & Hchars) | (more & ps & ->)];
    [now apply every_rstrip | apply rstrip_no_trailing | |];
    rewrite getitem_first; cbn [mbind outcome_bind].
  - destruct (int_two_digits d1 d2 H1 H2) as (k & -> & Hk).
    cbn [mbind outcome_bind].
    change (Py.getitem [String d1 (String d2 EmptyString); name] 1)
      with (Ret name).
    cbn [mbind outcome_bind]. exists k, name. split; [reflexivity|].
    unfold roster_entry. auto.
  - unfold Py.int. now rewrite parse_int_candidate_head.
Qed.

Lemma space_is_name_char w : Py.isspace w = true -> Pattern.name_char w = true.
Proof.
  intros Hw. unfold Pattern.name_char. rewrite Hw.
  now rewrite !orb_true_r.
Qed.

Lemma candidate_matches_have_head contest candidate :
  candidate ∈ Re.findall Pattern.candidate contest ->
  exists d1 d2 w1 rest,
    candidate = String d1 (String d2 (String w1 (String "=" rest)))
    /\ Py.isdecimal d1 = true /\ Py.isdecimal d2 = true
    /\ Py.isspace w1 = true /\ every Pattern.name_char rest = true.
Proof.
  unfold Re.findall, Re.matches. intros Hin.
  apply list_elem_of_fmap in Hin as [[g m] [-> Hin]]. cbn [snd].
  apply finditer_matches in Hin as (bol' & s' & n & Hm & ->).
  apply candidate_match_shape
    in Hm as (d1 & d2 & w1 & w2 & rest & -> & H1 & H2 & Hw1 & Hw2 & ->).
  cbn [Nat.add Py.take].
  exists d1, d2, w1,
    (String w2 (Py.take (Re.span Pattern.name_char None rest) rest)).
  repeat split; auto. cbn [every].
  rewrite (space_is_name_char w2 Hw2).
  now destruct (span_take Pattern.name_char None rest) as [-> _].
Qed.

Lemma for_each_raises_only {A S} (P : exn -> Prop) (f : S -> A -> outcome S) l :
  (forall acc x e, x ∈ l -> f acc x = Raise e -> P e) ->
  forall acc e, for_each f l acc = Raise e -> P e.
Proof.
  induction l as [|x l IH]; intros Hf acc e; cbn [for_each]; [discriminate|].
  destruct (f acc x) as [acc1|e1|] eqn:Hx; cbn [mbind outcome_bind];
    try discriminate.
  - apply IH. intros a y e' Hy. apply Hf. now right.
  - intros [= <-]. eapply Hf; [now left | exact Hx].
Qed.

Lemma grab_candidates_cases (contest : string) :
  match grab_candidates contest with
  | Ret candidates => map_Forall roster_entry candidates
  | Raise e => e = ValueError
  | OutOfFuel => False
  end.
Proof.
  pose proof (grab_candidates_finishes contest) as Hfin.
  destruct (grab_candidates contest) as [candidates|e|] eqn:Hrun; [| |done].
  - revert Hrun. unfold grab_candidates.
    apply for_each_invariant; [|apply map_Forall_empty].
    intros acc x acc' Hacc Hx Hstep.
    destruct (candidate_matches_have_head _ _ Hx)
      as (d1 & d2 & w1 & rest & -> & H1 & H2 & Hw & Hname).
    pose proof (add_candidate_outcome acc d1 d2 w1 rest H1 H2 Hw Hname)
      as Hout.
    rewrite Hstep in Hout. destruct Hout as (k & name & -> & Hk).
    now apply map_Forall_insert_2.
  - revert Hrun. unfold grab_candidates.
    apply (for_each_raises_only (fun e => e = ValueError)).
    intros acc x e' Hx Hstep.
    destruct (candidate_matches_have_head _ _ Hx)
      as (d1 & d2 & w1 & rest & -> & H1 & H2 & Hw & Hname).
    pose proof (add_candidate_outcome acc d1 d2 w1 rest H1 H2 Hw Hname)
      as Hout.
    now rewrite Hstep in Hout.
Qed.

(** X16. A roster that [grab_candidates] returns has its indices
    between 0 and 99 and its names not empty, free of white space at
    the end and made of the characters the pattern admits; and
    [grab_candidates] raises nothing but [ValueError].  Every match of
    the candidate pattern starts with two digits, and what is not split
    at " = " into index and name is rejected by [int]. *)
Theorem grab_candidates_outcome (contest : string) :
  match grab_candidates contest with
  | Ret candidates => map_Forall roster_entry candidates
  | Raise e => e = ValueError
  | OutOfFuel => False
  end.
Proof. apply grab_candidates_cases. Qed.

(** ** What the two entry points can raise once the report is read *)

Lemma grab_contest_title_raises fuel contest e :
  grab_contest_title fuel contest = Raise e -> e = IndexError.
Proof.
  unfold grab_contest_title.
  destruct (while fuel Title.cond (Title.body (Py.splitlines contest))
              Title.init) as [st|e'|] eqn:Hrun; cbn [mbind outcome_bind];
    try discriminate.
  intros [= <-].
  eapply (while_raises (fun e => e = IndexError)); [|exact Hrun].
  intros st e. apply title_body_raises.
Qed.

Lemma getitem_raises {A} (l : list A) i e :
  Py.getitem l i = Raise e -> e = IndexError.
Proof.
  unfold Py.getitem.
  repeat match goal with
         | |- context [if ?b then _ else _] => destruct b
         | |- context [match ?l !! ?i with _ => _ end] => destruct (l !! i)
         end; congruence.
Qed.

Lemma map_each_raises_only {A B} (P : exn -> Prop) (f : A -> outcome B) l e :
  (forall x e, f x = Raise e -> P e) -> map_each f l = Raise e -> P e.
Proof.
  intros Hf. induction l as [|x l IH]; cbn [map_each]; [discriminate|].
  destruct (f x) as [y|e1|] eqn:Hx; cbn [mbind outcome_bind];
    try discriminate.
  - destruct (map_each f l) as [ys|e2|]; cbn [mbind outcome_bind];
      try discriminate.
    intros [= <-]. now apply IH.
  - intros [= <-]. eapply Hf, Hx.
Qed.

Lemma grab_precincts_raises fuel contest e :
  grab_precincts fuel contest = Raise e -> e = IndexError \/ e = ValueError.
Proof.
  unfold grab_precincts. pose proof (verify_precincts_cases fuel contest) as Hv.
  destruct (verify_precincts fuel contest) as [region|e'|];
    cbn [mbind outcome_bind]; try discriminate.
  - intros Hrows. right.
    eapply (map_each_raises_only (fun e => e = ValueError)); [|exact Hrows].
    intros x e1 Hx. destruct (precinct_row_cases x) as [Hr | [row Hr]];
      congruence.
  - intros [= <-]. now left.
Qed.

Lemma header_row_raises candidates e :
  header_row candidates = Raise e -> e = KeyError.
Proof.
  unfold header_row. apply (for_each_raises_only (fun e => e = KeyError)).
  intros acc k e' _. unfold lookup_candidate.
  destruct (candidates !! k); cbn [mbind outcome_bind]; congruence.
Qed.

(** X17. Once the report is read, a call of [gen_election_table]
    without export path raises nothing but [AssertionError],
    [IndexError], [ValueError] and [KeyError]. *)
Theorem gen_election_table_errors (fuel : nat) (fs fs' : gmap string string)
  (import_filepath : string) (contests : list string) (contest_number : Z)
  (export : option string) (e : exn) :
  read_canvass_from_text fs import_filepath = Ret contests ->
  truthy export = None ->
  gen_election_table fuel fs import_filepath contest_number export
  = (Raise e, fs') ->
  e ∈ [AssertionError; IndexError; ValueError; KeyError].
Proof.
  intros Hread Hexport. unfold gen_election_table. rewrite Hexport.
  destruct (contest_table fuel fs import_filepath contest_number)
    as [table|e'|] eqn:Htable; try discriminate.
  intros [= <- <-]. revert Htable. unfold contest_table.
  rewrite Hread. cbn [mbind outcome_bind].
  destruct (negb _); [intros [= <-]; set_solver|].
  destruct (Py.getitem contests contest_number) as [contest|e1|] eqn:Hsel;
    cbn [mbind outcome_bind]; try discriminate.
  2:{ intros [= <-]. apply getitem_raises in Hsel as ->. set_solver. }
  destruct (grab_contest_title fuel contest) as [title|e1|] eqn:Ht;
    cbn [mbind outcome_bind]; try discriminate.
  2:{ intros [= <-]. apply grab_contest_title_raises in Ht as ->.
      set_solver. }
  pose proof (grab_candidates_cases contest) as Hc.
  destruct (grab_candidates contest) as [candidates|e1|];
    cbn [mbind outcome_bind]; try discriminate.
  2:{ intros [= <-]. rewrite Hc. set_solver. }
  destruct (grab_precincts fuel contest) as [rows|e1|] eqn:Hp;
    cbn [mbind outcome_bind]; try discriminate.
  2:{ intros [= <-]. apply grab_precincts_raises in Hp as [-> | ->];
        set_solver. }
  destruct (header_row candidates) as [header|e1|] eqn:Hh;
    cbn [mbind outcome_bind]; try discriminate.
  intros [= <-]. apply header_row_raises in Hh as ->. set_solver.
Qed.

Lemma gen_election_table_errors_witness :
  KeyError ∈ [AssertionError; IndexError; ValueError; KeyError].
Proof.
  apply (gen_election_table_errors 50 disk disk "gapped.txt"
           [preamble; gapped_contest] 1 None).
  - vm_compute. reflexivity.
  - reflexivity.
  - vm_compute. reflexivity.
Defined.

Lemma add_title_raises fuel contests d k e :
  add_title fuel contests d k = Raise e -> e = IndexError \/ e = TypeError.
Proof.
  unfold add_title.
  destruct (Py.getitem contests k) as [contest|e1|] eqn:Hsel;
    cbn [mbind outcome_bind]; try discriminate.
  2:{ intros [= <-]. apply getitem_raises in Hsel. auto. }
  destruct (grab_contest_title fuel contest) as [title|e1|] eqn:Ht;
    cbn [mbind outcome_bind]; try discriminate.
  2:{ intros [= <-]. apply grab_contest_title_raises in Ht. auto. }
  destruct (d !! title); [destruct title|]; try discriminate.
  intros [= <-]. auto.
Qed.

(** X18. Once the report is read, [display_contests] raises nothing
    but [IndexError] and [TypeError]. *)
Theorem display_contests_errors (fuel : nat) (fs : gmap string string)
  (import_filepath : string) (contests : list string) (e : exn) :
  read_canvass_from_text fs import_filepath = Ret contests ->
  display_contests fuel fs import_filepath = Raise e ->
  e ∈ [IndexError; TypeError].
Proof.
  intros Hread. unfold display_contests. rewrite Hread.
  cbn [mbind outcome_bind].
  apply (for_each_raises_only (fun e => e ∈ [IndexError; TypeError])).
  intros acc k e' _ [-> | ->]%add_title_raises; set_solver.
Qed.

Lemma display_contests_errors_witness :
  IndexError ∈ [IndexError; TypeError].
Proof.
  apply (display_contests_errors 20 {[ "unmarked.txt" := unmarked_report ]}
           "unmarked.txt"
           [preamble; titled_contest "COUNTY COMMISSIONER";
            newline +:+ text_of_lines ["END OF REPORT"]]).
  - vm_compute. reflexivity.
  - vm_compute. reflexivity.
Defined.
